(** * Runtime self-defence monitor (native-lib.cpp): shallow embedding

    The C++ translation unit keeps five process-wide globals, polls a set of
    detection probes from a background thread and from JNI entry points, and
    reacts with counter-measures gated by [gSecurityLevel].

    Embedding conventions:
    - everything the code asks the operating system (files, properties,
      clocks, [prctl], [dlopen], thread creation) is answered by a [World]
      record, one snapshot per call of an entry point or loop iteration;
    - the globals form the record [State]; code that touches them lives in
      the monad [M], which threads the state and collects, in program order,
      the OS-visible effects ([Event]) that the call performed;
    - [int], [jint], [time_t] and [long] values are integers in [Z]; the C
      remainder operator is [Z.rem] (truncation towards zero);
    - logging ([LOGD]/[LOGE]) has no influence on control flow and is left
      out. *)

From Stdlib Require Import ZArith List Bool Ascii String Lia.
Import ListNotations.

Local Open Scope string_scope.
Local Open Scope list_scope.
Local Open Scope Z_scope.

(* ================================================================== *)
(** ** The C library functions used by the probes *)
(* ================================================================== *)

Module CLib.

(** [s1] is an initial segment of [s2]. *)
Fixpoint starts_with (s1 s2 : string) : bool :=
  match s1, s2 with
  | EmptyString, _ => true
  | String _ _, EmptyString => false
  | String a s1', String b s2' => Ascii.eqb a b && starts_with s1' s2'
  end.

(** [strstr(haystack, needle)]: the suffix of [haystack] that begins at the
    first occurrence of [needle], or [None] for a null pointer. *)
Fixpoint strstr (haystack needle : string) : option string :=
  if starts_with needle haystack then Some haystack
  else match haystack with
       | EmptyString => None
       | String _ rest => strstr rest needle
       end.

(** [p + n] on a [char*]: drop [n] bytes. *)
Fixpoint advance (n : nat) (p : string) : string :=
  match n, p with
  | O, _ => p
  | S _, EmptyString => EmptyString
  | S n', String _ p' => advance n' p'
  end.

(** A byte buffer read as a C string ends at its first NUL byte. *)
Fixpoint c_str (buf : string) : string :=
  match buf with
  | EmptyString => EmptyString
  | String c rest => if Ascii.eqb c zero then EmptyString else String c (c_str rest)
  end.

Definition code (c : ascii) : Z := Z.of_N (N_of_ascii c).

(** [isspace] in the C locale: space, and \t \n \v \f \r (9..13). *)
Definition isspace (c : ascii) : bool :=
  (code c =? 32) || ((9 <=? code c) && (code c <=? 13)).

Definition digit_of (c : ascii) : option Z :=
  if (48 <=? code c) && (code c <=? 57) then Some (code c - 48) else None.

Fixpoint skip_space (s : string) : string :=
  match s with
  | String c rest => if isspace c then skip_space rest else s
  | EmptyString => s
  end.

(** The longest run of decimal digits at the head of [s]; [acc] is [None]
    until a first digit has been consumed. *)
Fixpoint scan_digits (s : string) (acc : option Z) : option Z :=
  match s with
  | EmptyString => acc
  | String c rest =>
      match digit_of c with
      | Some d =>
          scan_digits rest
            (Some (10 * match acc with Some a => a | None => 0 end + d))
      | None => acc
      end
  end.

(** A value reduced to a two's complement integer of [bits] bits, as a
    conversion to a narrower signed type and as wrap-around arithmetic do. *)
Definition wrap_signed (bits : Z) (v : Z) : Z :=
  (v + 2 ^ (bits - 1)) mod 2 ^ bits - 2 ^ (bits - 1).

(** [strtoimax] answers with [INTMAX_MIN] or [INTMAX_MAX] for a number
    outside the 64-bit range. *)
Definition strtoimax_range (v : Z) : Z :=
  Z.max (- 2 ^ 63) (Z.min (2 ^ 63 - 1) v).

(** What [sscanf] stores through an [int*]: the [intmax_t] converted to
    32 bits. *)
Definition int_of_intmax (v : Z) : Z := wrap_signed 32 v.

(** [sscanf(s, "%d", &out)]: skips white space, accepts one optional sign
    and then needs at least one digit.  [Some v] stands for a return value
    of 1 with [v] stored in the [int]; [None] for any other return value (0
    or EOF), where nothing is stored.  The digits are converted as the C
    library of the platform does it: by [strtoimax], whose result is then
    assigned to the [int]. *)
Definition sscanf_d (s : string) : option Z :=
  match skip_space s with
  | EmptyString => None
  | String c rest =>
      let number :=
        if Ascii.eqb c "-" then option_map Z.opp (scan_digits rest None)
        else if Ascii.eqb c "+" then scan_digits rest None
        else scan_digits (String c rest) None in
      option_map (fun v => int_of_intmax (strtoimax_range v)) number
  end.

(** Every byte of [s] satisfies [p]. *)
Fixpoint all_bytes (p : ascii -> bool) (s : string) : bool :=
  match s with
  | EmptyString => true
  | String c rest => p c && all_bytes p rest
  end.

Definition is_digit (c : ascii) : bool :=
  match digit_of c with Some _ => true | None => false end.

(** The number a string of decimal digits denotes, continuing from [acc]. *)
Fixpoint decimal_from (acc : Z) (digits : string) : Z :=
  match digits with
  | EmptyString => acc
  | String c rest => decimal_from (10 * acc + (code c - 48)) rest
  end.

Definition decimal_value (digits : string) : Z := decimal_from 0 digits.

(** [c] is not the NUL byte. *)
Definition not_nul (c : ascii) : bool := negb (Ascii.eqb c zero).

(** [s] is empty or begins with a byte that is not a decimal digit. *)
Definition ends_number (s : string) : bool :=
  match s with
  | EmptyString => true
  | String c _ => negb (is_digit c)
  end.

(** [strstr(s, needle) != nullptr] *)
Definition contains (s needle : string) : bool :=
  match strstr s needle with Some _ => true | None => false end.

End CLib.

(* ================================================================== *)
(** ** The operating system as seen by one call *)
(* ================================================================== *)

(** [struct timespec] *)
Record timespec := { tv_sec : Z; tv_nsec : Z }.

Record World := {
  (** [time(nullptr)] *)
  time_now : Z;
  (** [open("/proc/self/status", O_RDONLY)]: [None] when the descriptor is
      negative, otherwise the bytes the file holds *)
  open_proc_status : option string;
  (** what the kernel answers to [read]: a negative value for an error, 0
      for end of file, otherwise the most bytes it is willing to deliver *)
  read_ret : Z;
  (** [dlopen(name, RTLD_NOW) != nullptr] *)
  dlopen : string -> bool;
  (** [opendir("/proc/self/maps")]: [None] for a null [DIR*], otherwise the
      [d_name] of the entries [readdir] yields, in order *)
  opendir_maps : option (list string);
  (** [stat(path, &s) == 0] *)
  stat_ok : string -> bool;
  (** [__system_property_get(name, value)]: the value written to the
      buffer, empty for a property that is not set *)
  system_property_get : string -> string;
  (** the width in bits of [long] and [time_t] on the ABI the library was
      built for: 64 on arm64-v8a and x86_64, 32 on armeabi-v7a and x86 *)
  long_bits : Z;
  (** the two [clock_gettime(CLOCK_MONOTONIC, _)] readings that bracket the
      benchmark loop of [detectTimingAnomaly] *)
  clock_start : timespec;
  clock_end : timespec;
  (** [prctl(PR_SET_DUMPABLE, 0, 0, 0, 0) == 0] *)
  prctl_set_dumpable_ok : bool;
  (** [prctl(PR_SET_NAME, name, 0, 0, 0) == 0] *)
  prctl_set_name_ok : string -> bool;
  (** [open("/proc/self/cmdline", O_WRONLY) >= 0] *)
  open_cmdline_ok : bool;
  (** [write] to that descriptor transferred all bytes *)
  write_cmdline_ok : bool;
  (** [pthread_create] returned 0 *)
  pthread_create_ok : bool
}.

(** OS-visible effects, recorded in program order. *)
Inductive Event :=
| EvPthreadCreate (started : bool)      (* pthread_create(securityMonitorThread) *)
| EvEmulatorProbe                       (* property and file scan of detectEmulator *)
| EvSetDumpable (ok : bool)             (* prctl(PR_SET_DUMPABLE, 0) *)
| EvNoiseAlloc (bytes : Z)              (* new char[BUFFER_SIZE], never deleted *)
| EvSetName (name : string) (ok : bool) (* prctl(PR_SET_NAME, name) *)
| EvWriteCmdline (data : string) (ok : bool) (* write(fd, fake_cmdline, ...) *)
| EvSleep (usec : Z).                   (* usleep(usec) *)

(* ================================================================== *)
(** ** Globals *)
(* ================================================================== *)

Record State := {
  gJavaVM : Z;                    (* JavaVM*, 0 is nullptr *)
  gSecurityThreadRunning : bool;
  gSecurityLevel : Z;
  gLastEmulatorCheck : Z;         (* time_t *)
  gIsEmulator : bool
}.

(** The static initialisers of the translation unit. *)
Definition initial_state : State :=
  {| gJavaVM := 0;
     gSecurityThreadRunning := false;
     gSecurityLevel := 1;
     gLastEmulatorCheck := 0;
     gIsEmulator := false |}.

Definition set_gJavaVM (v : Z) (s : State) : State :=
  {| gJavaVM := v;
     gSecurityThreadRunning := gSecurityThreadRunning s;
     gSecurityLevel := gSecurityLevel s;
     gLastEmulatorCheck := gLastEmulatorCheck s;
     gIsEmulator := gIsEmulator s |}.

Definition set_gSecurityThreadRunning (v : bool) (s : State) : State :=
  {| gJavaVM := gJavaVM s;
     gSecurityThreadRunning := v;
     gSecurityLevel := gSecurityLevel s;
     gLastEmulatorCheck := gLastEmulatorCheck s;
     gIsEmulator := gIsEmulator s |}.

Definition set_gSecurityLevel (v : Z) (s : State) : State :=
  {| gJavaVM := gJavaVM s;
     gSecurityThreadRunning := gSecurityThreadRunning s;
     gSecurityLevel := v;
     gLastEmulatorCheck := gLastEmulatorCheck s;
     gIsEmulator := gIsEmulator s |}.

Definition set_gLastEmulatorCheck (v : Z) (s : State) : State :=
  {| gJavaVM := gJavaVM s;
     gSecurityThreadRunning := gSecurityThreadRunning s;
     gSecurityLevel := gSecurityLevel s;
     gLastEmulatorCheck := v;
     gIsEmulator := gIsEmulator s |}.

Definition set_gIsEmulator (v : bool) (s : State) : State :=
  {| gJavaVM := gJavaVM s;
     gSecurityThreadRunning := gSecurityThreadRunning s;
     gSecurityLevel := gSecurityLevel s;
     gLastEmulatorCheck := gLastEmulatorCheck s;
     gIsEmulator := v |}.

(* ================================================================== *)
(** ** State-and-effects monad *)
(* ================================================================== *)

(** A computation takes the globals and yields its result, the globals
    afterwards and the effects it performed, oldest first. *)
Definition M (A : Type) : Type := State -> A * State * list Event.

Definition ret {A} (a : A) : M A := fun s => (a, s, []).

Definition bind {A B} (m : M A) (k : A -> M B) : M B :=
  fun s =>
    let '(a, s1, e1) := m s in
    let '(b, s2, e2) := k a s1 in
    (b, s2, e1 ++ e2).

Definition gets {A} (f : State -> A) : M A := fun s => (f s, s, []).
Definition modify (f : State -> State) : M unit := fun s => (tt, f s, []).
Definition emit (e : Event) : M unit := fun s => (tt, s, [e]).

Declare Scope monad_scope.
Delimit Scope monad_scope with monad.
Notation "x <- m ;; k" := (bind m (fun x => k))
  (at level 61, m at next level, right associativity) : monad_scope.
Notation "m ;; k" := (bind m (fun _ => k))
  (at level 61, right associativity) : monad_scope.
Local Open Scope monad_scope.

Definition result {A} (r : A * State * list Event) : A := fst (fst r).
Definition state_after {A} (r : A * State * list Event) : State := snd (fst r).
Definition effects {A} (r : A * State * list Event) : list Event := snd r.

(* ================================================================== *)
(** ** Signal collectors *)
(* ================================================================== *)

Import CLib.

(** [read(fd, buf, count)] on the freshly opened status file: the return
    value and the bytes placed in [buf].  The kernel never delivers more
    than [count] bytes nor more than the file holds. *)
Definition sys_read (w : World) (file : string) (count : Z) : Z * string :=
  let n := Z.min (read_ret w) (Z.min count (Z.of_nat (String.length file))) in
  (n, if n <=? 0 then "" else substring 0 (Z.to_nat n) file).

(** [bool isBeingTraced()] *)
Definition isBeingTraced (w : World) : bool :=
  match open_proc_status w with
  | None => false                                   (* fd < 0 *)
  | Some file =>
      let tracer_needle := "TracerPid:" in
      let '(num_read, bytes) := sys_read w file (512 - 1) in
      if num_read <=? 0 then false
      else
        let buf := c_str bytes in                   (* buf[num_read] = '\0' *)
        match strstr buf tracer_needle with
        | None => false
        | Some tracer_pid_line =>
            match sscanf_d (advance (String.length tracer_needle) tracer_pid_line) with
            | None => false
            | Some tracer_pid => negb (tracer_pid =? 0)
            end
        end
  end.

Definition magisk_paths : list string :=
  [ "/sbin/.magisk"; "/sbin/.core"; "/data/adb/magisk";
    "/cache/.disable_magisk"; "/dev/.magisk.db" ].

(** [bool detectMagiskHooks()] *)
Definition detectMagiskHooks (w : World) : bool :=
  if existsb (stat_ok w) magisk_paths then true
  else
    let prop_value := system_property_get w "ro.magisk.hide" in
    if (0 <? Z.of_nat (String.length prop_value)) then true else false.

(** [bool isHookingFrameworkPresent()] *)
Definition isHookingFrameworkPresent (w : World) : bool :=
  if dlopen w "libxposed_art.so" then true
  else if dlopen w "libsubstrate.so" then true
  else if match opendir_maps w with
          | Some entries => existsb (fun d_name => contains d_name "frida") entries
          | None => false
          end
       then true
  else if detectMagiskHooks w then true
  else false.

Definition emulator_props : list string :=
  [ "ro.hardware"; "ro.product.model"; "ro.product.manufacturer";
    "ro.kernel.qemu"; "ro.bootloader"; "ro.bootmode";
    "ro.build.characteristics" ].

Definition emulator_values : list string :=
  [ "goldfish"; "ranchu"; "sdk"; "sdk_gphone"; "emulator";
    "Genymotion"; "vbox"; "nox"; "bluestacks"; "android_x86" ].

Definition emulator_files : list string :=
  [ "/dev/socket/qemud"; "/dev/qemu_pipe";
    "/system/lib/libc_malloc_debug_qemu.so"; "/sys/qemu_trace";
    "/system/bin/qemu-props"; "/dev/socket/genyd";
    "/dev/socket/baseband_genyd" ].

(** The part of [detectEmulator] between the cache test and [end_check]:
    the nested property loop, then the file loop; the first hit decides. *)
Definition emulator_scan (w : World) : bool :=
  if existsb
       (fun prop =>
          let prop_value := system_property_get w prop in
          existsb (fun value => contains prop_value value) emulator_values)
       emulator_props
  then true
  else existsb (stat_ok w) emulator_files.

(** [bool detectEmulator()] *)
Definition detectEmulator (w : World) : M bool :=
  let now := time_now w in
  last <- gets gLastEmulatorCheck ;;
  if (now - last <? 60) && negb (last =? 0) then
    gets gIsEmulator
  else
    modify (set_gLastEmulatorCheck now) ;;
    emit EvEmulatorProbe ;;
    let result := emulator_scan w in
    modify (set_gIsEmulator result) ;;
    ret result.

(** [bool detectTimingAnomaly()]; the benchmark loop between the two clock
    readings computes a sum that is not used and shows only in the time that
    passes.  [elapsed_ns] and the fields of [timespec] are [long]: every
    operation wraps at that width. *)
Definition detectTimingAnomaly (w : World) : bool :=
  let long := wrap_signed (long_bits w) in
  let elapsed_ns :=
    long (long (long (tv_sec (clock_end w) - tv_sec (clock_start w)) * 1000000000)
          + long (tv_nsec (clock_end w) - tv_nsec (clock_start w))) in
  elapsed_ns >? 10000000.

Definition container_files : list string :=
  [ "/.dockerenv"; "/dev/lxc"; "/dev/vboxguest"; "/dev/vboxuser" ].

(** [bool detectVirtualEnvironment()] *)
Definition detectVirtualEnvironment (w : World) : bool :=
  existsb (stat_ok w) container_files.

(* ================================================================== *)
(** ** Counter-measures and the level setter *)
(* ================================================================== *)

(** [bool blockPtraceAttach()] *)
Definition blockPtraceAttach (w : World) : M bool :=
  let ok := prctl_set_dumpable_ok w in
  emit (EvSetDumpable ok) ;;
  ret ok.

(** [void obfuscateMemory()]: the buffer is filled from [rand()] and then
    dropped without [delete]; only the allocation is observable. *)
Definition obfuscateMemory : M unit :=
  let BUFFER_SIZE := 1024 in
  emit (EvNoiseAlloc BUFFER_SIZE).

(** [void setSecurityLevel(int level)] *)
Definition setSecurityLevel (level : Z) : M unit :=
  if (1 <=? level) && (level <=? 3) then modify (set_gSecurityLevel level)
  else ret tt.

(** [bool spoofProcessName(const char* new_name)] *)
Definition spoofProcessName (w : World) (new_name : string) : M bool :=
  let ok := prctl_set_name_ok w new_name in
  emit (EvSetName new_name ok) ;;
  ret ok.

(** [bool hideProcessInfo(int pid)]; the written bytes are the decoy and its
    terminating NUL. *)
Definition hideProcessInfo (w : World) (pid : Z) : M bool :=
  let fake_cmdline := "system_server" in
  (if open_cmdline_ok w
   then emit (EvWriteCmdline (fake_cmdline ++ String zero "")%string
                             (write_cmdline_ok w))
   else ret tt) ;;
  ret true.

(* ================================================================== *)
(** ** The monitor thread *)
(* ================================================================== *)

Definition TRACER_CHECK_INTERVAL_MS : Z := 250.

Definition system_procs : list string :=
  [ "system_server"; "zygote"; "media"; "surfaceflinger" ].

(** [system_procs[idx]]; [None] for an index outside the array, which the
    C++ code would read out of bounds. *)
Definition system_procs_at (idx : Z) : option string :=
  if idx <? 0 then None else nth_error system_procs (Z.to_nat idx).

(** [sleep_time] after the [switch (gSecurityLevel)]; the initial value
    [TRACER_CHECK_INTERVAL_MS] is overwritten on every path, the last one
    being the [default] label. *)
Definition sleep_time_for (level : Z) : Z :=
  let sleep_time := TRACER_CHECK_INTERVAL_MS in
  if level =? 3 then 100
  else if level =? 2 then 200
  else if level =? 1 then 300
  else 300.

(** One pass through the body of [while (gSecurityThreadRunning)], entered
    with the thread-local [check_counter]; yields the counter after
    [check_counter++]. *)
Definition securityMonitorThread_body (w : World) (check_counter : Z) : M Z :=
  let traced := isBeingTraced w in
  let hooked := isHookingFrameworkPresent w in
  slow <- (if Z.rem check_counter 10 =? 0
           then in_emulator <- detectEmulator w ;;
                ret (in_emulator, detectVirtualEnvironment w)
           else ret (false, false)) ;;
  let in_emulator := fst slow in
  let in_virtual_env := snd slow in
  let timing_anomaly :=
    if Z.rem check_counter 5 =? 0 then detectTimingAnomaly w else false in
  (if traced || hooked || timing_anomaly || in_emulator || in_virtual_env then
     level <- gets gSecurityLevel ;;
     (if level >=? 3 then obfuscateMemory ;; blockPtraceAttach w ;; ret tt
      else if level >=? 2 then blockPtraceAttach w ;; ret tt
      else ret tt) ;;
     (if Z.rem check_counter 20 =? 0 then
        let idx := Z.rem check_counter 4 in
        match system_procs_at idx with
        | Some name => spoofProcessName w name ;; ret tt
        | None => ret tt
        end
      else ret tt)
   else ret tt) ;;
  level <- gets gSecurityLevel ;;
  let sleep_time := sleep_time_for level in
  emit (EvSleep (sleep_time * 1000)) ;;
  ret (check_counter + 1).

(** The loop of [securityMonitorThread], observed for as many iterations as
    there are worlds in [ws]; yields the value of [check_counter] reached. *)
Fixpoint securityMonitorLoop (ws : list World) (check_counter : Z) : M Z :=
  match ws with
  | [] => ret check_counter
  | w :: ws' =>
      running <- gets gSecurityThreadRunning ;;
      if running then
        next <- securityMonitorThread_body w check_counter ;;
        securityMonitorLoop ws' next
      else ret check_counter
  end.

Definition securityMonitorThread (ws : list World) : M Z :=
  securityMonitorLoop ws 0.

(* ================================================================== *)
(** ** Entry points *)
(* ================================================================== *)

Definition JNI_VERSION_1_6 : Z := 65542.   (* 0x00010006 *)

(** [JNI_OnLoad], called with the [JavaVM] pointer; the test and the assignment of the
    flag happen while [gSecurityMutex] is held, hence in one step. *)
Definition JNI_OnLoad (w : World) (vm : Z) : M Z :=
  modify (set_gJavaVM vm) ;;
  running <- gets gSecurityThreadRunning ;;
  (if negb running then
     modify (set_gSecurityThreadRunning true) ;;
     emit (EvPthreadCreate (pthread_create_ok w))
   else ret tt) ;;
  ret JNI_VERSION_1_6.

Definition Java_com_aiassistant_security_ProcessIsolation_nativeSpoofProcessName
  (w : World) (name : string) : M bool :=
  spoofProcessName w name.

Definition Java_com_aiassistant_security_ProcessIsolation_nativeHideProcessInfo
  (w : World) (pid : Z) : M bool :=
  ok <- hideProcessInfo w pid ;;
  ret (if ok then true else false).

Definition Java_com_aiassistant_core_ai_AIStateManager_isBeingAnalyzedNative
  (w : World) : M bool :=
  let traced := isBeingTraced w in
  let hooked := isHookingFrameworkPresent w in
  let timing_anomaly := detectTimingAnomaly w in
  in_emulator <- detectEmulator w ;;
  level <- gets gSecurityLevel ;;
  if level >=? 3 then
    ret (traced || hooked || timing_anomaly || in_emulator)
  else if level >=? 2 then
    ret (traced || hooked || timing_anomaly)
  else
    ret (traced || hooked).

Definition Java_com_aiassistant_security_AntiDetectionManager_initializeNativeSecurity
  (w : World) : M unit :=
  blockPtraceAttach w ;;
  is_emulator <- detectEmulator w ;;
  let has_hooks := isHookingFrameworkPresent w in
  if is_emulator || has_hooks then setSecurityLevel 3
  else setSecurityLevel 1.

Definition Java_com_aiassistant_security_SecurityContext_setNativeSecurityLevel
  (level : Z) : M unit :=
  setSecurityLevel level.

Definition Java_com_aiassistant_security_AntiDetectionManager_isRunningInEmulator
  (w : World) : M bool :=
  detectEmulator w.

Definition Java_com_aiassistant_security_AntiDetectionManager_hasHookFramework
  (w : World) : M bool :=
  ret (isHookingFrameworkPresent w).

(* ================================================================== *)
(** ** The process: host calls interleaved with monitor iterations *)
(* ================================================================== *)

(** A thread created by [pthread_create(.., securityMonitorThread, ..)] is
    either inside its loop with some value of [check_counter], or has left
    the loop and returned [nullptr]. *)
Inductive Thread :=
| Looping (check_counter : Z)
| Returned.

Record Process := {
  globals : State;
  monitors : list Thread;
  history : list Event
}.

Definition initial_process : Process :=
  {| globals := initial_state; monitors := []; history := [] |}.

(** The exported functions of the library. *)
Inductive Call :=
| OnLoad (vm : Z)
| NativeSpoofProcessName (name : string)
| NativeHideProcessInfo (pid : Z)
| IsBeingAnalyzedNative
| InitializeNativeSecurity
| SetNativeSecurityLevel (level : Z)
| IsRunningInEmulator
| HasHookFramework.

Definition forget {A} (m : M A) : M unit := m ;; ret tt.

Definition entry (w : World) (c : Call) : M unit :=
  match c with
  | OnLoad vm => forget (JNI_OnLoad w vm)
  | NativeSpoofProcessName name =>
      forget (Java_com_aiassistant_security_ProcessIsolation_nativeSpoofProcessName w name)
  | NativeHideProcessInfo pid =>
      forget (Java_com_aiassistant_security_ProcessIsolation_nativeHideProcessInfo w pid)
  | IsBeingAnalyzedNative =>
      forget (Java_com_aiassistant_core_ai_AIStateManager_isBeingAnalyzedNative w)
  | InitializeNativeSecurity =>
      Java_com_aiassistant_security_AntiDetectionManager_initializeNativeSecurity w
  | SetNativeSecurityLevel level =>
      Java_com_aiassistant_security_SecurityContext_setNativeSecurityLevel level
  | IsRunningInEmulator =>
      forget (Java_com_aiassistant_security_AntiDetectionManager_isRunningInEmulator w)
  | HasHookFramework =>
      forget (Java_com_aiassistant_security_AntiDetectionManager_hasHookFramework w)
  end.

(** What happens next in the process: the host calls an exported function,
    or monitor thread number [i] evaluates its loop condition and, if it
    holds, runs the body once. *)
Inductive Action :=
| Invoke (c : Call)
| Schedule (i : nat).

(** The threads that the effects [ev] brought into being. *)
Definition spawned (ev : list Event) : list Thread :=
  flat_map (fun e => match e with
                     | EvPthreadCreate true => [Looping 0]
                     | _ => []
                     end) ev.

Fixpoint update_nth {A} (i : nat) (x : A) (l : list A) : list A :=
  match l, i with
  | [], _ => []
  | _ :: t, O => x :: t
  | h :: t, S i' => h :: update_nth i' x t
  end.

Definition step (w : World) (a : Action) (p : Process) : Process :=
  match a with
  | Invoke c =>
      let '(_, s', ev) := entry w c (globals p) in
      {| globals := s';
         monitors := monitors p ++ spawned ev;
         history := history p ++ ev |}
  | Schedule i =>
      match nth_error (monitors p) i with
      | Some (Looping check_counter) =>
          if gSecurityThreadRunning (globals p) then
            let '(next, s', ev) :=
              securityMonitorThread_body w check_counter (globals p) in
            {| globals := s';
               monitors := update_nth i (Looping next) (monitors p);
               history := history p ++ ev |}
          else
            {| globals := globals p;
               monitors := update_nth i Returned (monitors p);
               history := history p |}
      | _ => p
      end
  end.

(** A schedule is a list of actions, each with the world it meets. *)
Fixpoint run (sched : list (World * Action)) (p : Process) : Process :=
  match sched with
  | [] => p
  | (w, a) :: rest => run rest (step w a p)
  end.

(* ================================================================== *)
(** ** Views on effect lists *)
(* ================================================================== *)

(** The names handed to [prctl(PR_SET_NAME, _)], in order. *)
Fixpoint spoofed_names (ev : list Event) : list string :=
  match ev with
  | [] => []
  | EvSetName name _ :: t => name :: spoofed_names t
  | _ :: t => spoofed_names t
  end.

(** How many noise buffers were allocated. *)
Fixpoint noise_allocations (ev : list Event) : nat :=
  match ev with
  | [] => O
  | EvNoiseAlloc _ :: t => S (noise_allocations t)
  | _ :: t => noise_allocations t
  end.

(** How many times the emulator scan ran. *)
Fixpoint emulator_probes (ev : list Event) : nat :=
  match ev with
  | [] => O
  | EvEmulatorProbe :: t => S (emulator_probes t)
  | _ :: t => emulator_probes t
  end.

(** How many times [pthread_create] was called. *)
Fixpoint thread_creations (ev : list Event) : nat :=
  match ev with
  | [] => O
  | EvPthreadCreate _ :: t => S (thread_creations t)
  | _ :: t => thread_creations t
  end.

(** The disjunction that guards the counter-measures in the loop body, with
    the slow probes and the timing probe evaluated only on their cadence. *)
Definition threat_detected (w : World) (check_counter : Z) (s : State) : bool :=
  isBeingTraced w
  || isHookingFrameworkPresent w
  || (if Z.rem check_counter 5 =? 0 then detectTimingAnomaly w else false)
  || (if Z.rem check_counter 10 =? 0 then result (detectEmulator w s) else false)
  || (if Z.rem check_counter 10 =? 0 then detectVirtualEnvironment w else false).

(** The effects of the reaction block of the loop body at [level]. *)
Definition reaction (w : World) (check_counter level : Z) : list Event :=
  (if level >=? 3
   then [EvNoiseAlloc 1024; EvSetDumpable (prctl_set_dumpable_ok w)]
   else if level >=? 2 then [EvSetDumpable (prctl_set_dumpable_ok w)]
   else [])
  ++ (if Z.rem check_counter 20 =? 0
      then match system_procs_at (Z.rem check_counter 4) with
           | Some name => [EvSetName name (prctl_set_name_ok w name)]
           | None => []
           end
      else []).

(** The globals after the probes of one iteration. *)
Definition after_probes (w : World) (check_counter : Z) (s : State) : State :=
  if Z.rem check_counter 10 =? 0 then state_after (detectEmulator w s) else s.

(** A level is one of Normal, Enhanced, Maximum. *)
Definition valid_level (level : Z) : Prop := level = 1 \/ level = 2 \/ level = 3.

(** The cache of [detectEmulator] holds an entry that is younger than 60
    seconds at time [now]; a zero timestamp marks the empty cache. *)
Definition cache_fresh (now : Z) (s : State) : bool :=
  (now - gLastEmulatorCheck s <? 60) && negb (gLastEmulatorCheck s =? 0).

(** The level is valid; [pthread_create] has been called once if the
    running flag is set and never otherwise; there are no more monitor
    threads than calls of [pthread_create]. *)
Definition process_invariant (p : Process) : Prop :=
  valid_level (gSecurityLevel (globals p))
  /\ thread_creations (history p)
     = (if gSecurityThreadRunning (globals p) then 1 else 0)%nat
  /\ (List.length (monitors p) <= thread_creations (history p))%nat.

(** How many times [prctl(PR_SET_DUMPABLE, 0)] was called. *)
Fixpoint set_dumpable_calls (ev : list Event) : nat :=
  match ev with
  | [] => O
  | EvSetDumpable _ :: t => S (set_dumpable_calls t)
  | _ :: t => set_dumpable_calls t
  end.

(** The arguments of the [usleep] calls, in order. *)
Fixpoint sleeps (ev : list Event) : list Z :=
  match ev with
  | [] => []
  | EvSleep usec :: t => usec :: sleeps t
  | _ :: t => sleeps t
  end.

(** The total size of the noise buffers allocated. *)
Fixpoint noise_bytes (ev : list Event) : Z :=
  match ev with
  | [] => 0
  | EvNoiseAlloc bytes :: t => bytes + noise_bytes t
  | _ :: t => noise_bytes t
  end.

(** The exported functions whose body reaches [setSecurityLevel]. *)
Definition calls_level_setter (a : Action) : bool :=
  match a with
  | Invoke InitializeNativeSecurity => true
  | Invoke (SetNativeSecurityLevel _) => true
  | _ => false
  end.

(** In the iteration entered with [check_counter], the timing probe was
    evaluated and answered true, and every other signal that was evaluated
    answered false. *)
Definition only_timing_anomalous (w : World) (check_counter : Z) (s : State)
  : Prop :=
  isBeingTraced w = false
  /\ isHookingFrameworkPresent w = false
  /\ (Z.rem check_counter 5 = 0 /\ detectTimingAnomaly w = true)
  /\ (Z.rem check_counter 10 = 0 ->
      result (detectEmulator w s) = false
      /\ detectVirtualEnvironment w = false).

(** *** The status file read field by field

    The status file is a sequence of lines "Key:<TAB>value", each ended by a
    newline; the tracer identifier is the value of the line whose key is
    TracerPid. *)

(** The lines of [s], without their newline bytes. *)
Fixpoint spec_status_lines (s : string) : list string :=
  match s with
  | EmptyString => [EmptyString]
  | String c rest =>
      if Ascii.eqb c (ascii_of_nat 10) then EmptyString :: spec_status_lines rest
      else match spec_status_lines rest with
           | line :: more => String c line :: more
           | [] => [String c EmptyString]
           end
  end.

(** The value of the first line of [file] whose key is [key], with the
    blanks behind the colon removed. *)
Definition spec_status_field (key file : string) : option string :=
  match find (starts_with (key ++ ":")) (spec_status_lines file) with
  | Some line => Some (skip_space (advance (String.length key + 1) line))
  | None => None
  end.

(** *** The cache contract in the words of the specification

    An entry holds the last computed value and the time it was computed;
    there is one entry, for the Emulated signal, with a TTL of 60 seconds. *)
Record EnvironmentCacheEntry := {
  entry_value : bool;
  entry_timestamp : Z
}.

Definition TTL : Z := 60.

(** [get_or_compute]: with an entry younger than the TTL, its value and no
    call of the compute function; otherwise the computed value, stored with
    [now].  [computed] is what the compute function returns when called; the
    last component tells whether it was called. *)
Definition spec_get_or_compute
  (now : Z) (computed : bool) (cache : option EnvironmentCacheEntry)
  : bool * option EnvironmentCacheEntry * bool :=
  match cache with
  | Some e =>
      if now - entry_timestamp e <? TTL then (entry_value e, cache, false)
      else (computed,
            Some {| entry_value := computed; entry_timestamp := now |}, true)
  | None =>
      (computed, Some {| entry_value := computed; entry_timestamp := now |}, true)
  end.

(** How the two globals of [detectEmulator] represent the entry: a zero
    timestamp stands for the absent entry. *)
Definition cache_repr (s : State) (cache : option EnvironmentCacheEntry) : Prop :=
  match cache with
  | None => gLastEmulatorCheck s = 0
  | Some e =>
      gLastEmulatorCheck s = entry_timestamp e
      /\ gIsEmulator s = entry_value e
      /\ entry_timestamp e <> 0
  end.

(* ================================================================== *)
(** ** Sample worlds *)
(* ================================================================== *)

Module Samples.

Definition TAB : string := String (ascii_of_nat 9) "".
Definition NL : string := String (ascii_of_nat 10) "".

(** One "Key:<TAB>value<NL>" line of /proc/self/status. *)
Definition status_line (key value : string) : string :=
  (key ++ ":" ++ TAB ++ value ++ NL)%string.

(** The lines of a status file that Linux prints before the tracer field,
    for a process called [name]. *)
Definition status_head (name : string) : string :=
  (status_line "Name" name
   ++ status_line "Umask" "0077"
   ++ status_line "State" "S (sleeping)"
   ++ status_line "Tgid" "4711"
   ++ status_line "Ngid" "0"
   ++ status_line "Pid" "4711"
   ++ status_line "PPid" "612")%string.

(** The end of the tracer line and some of the lines after it. *)
Definition status_tail : string :=
  (NL
   ++ status_line "Uid" ("10123" ++ TAB ++ "10123" ++ TAB ++ "10123" ++ TAB ++ "10123")
   ++ status_line "FDSize" "128")%string.

(** A status file for a process called [name] whose tracer has the process
    id written [tracer]. *)
Definition status_text (name tracer : string) : string :=
  (status_head name ++ "TracerPid:" ++ TAB ++ tracer ++ status_tail)%string.

(** A world in which exactly the chosen signals are present: a tracer
    with process id 815, a loadable Xposed library, a benchmark that took
    25 ms, the [/dev/qemu_pipe] device, the [/.dockerenv] marker. *)
Definition world (now : Z) (traced hooked timing emulated virtualized : bool)
  : World :=
  {| time_now := now;
     open_proc_status :=
       Some (status_text "com.aiassistant" (if traced then "815" else "0"));
     read_ret := 511;
     dlopen := fun name => hooked && String.eqb name "libxposed_art.so";
     opendir_maps := None;
     stat_ok := fun path =>
       (emulated && String.eqb path "/dev/qemu_pipe")
       || (virtualized && String.eqb path "/.dockerenv");
     system_property_get := fun _ => "";
     long_bits := 64;
     clock_start := {| tv_sec := 90; tv_nsec := 999000000 |};
     clock_end :=
       {| tv_sec := 91; tv_nsec := if timing then 24000000 else 1000000 |};
     prctl_set_dumpable_ok := true;
     prctl_set_name_ok := fun _ => true;
     open_cmdline_ok := false;
     write_cmdline_ok := false;
     pthread_create_ok := true |}.

(** The world [w], except that the status file cannot be opened. *)
Definition unreadable_status (w : World) : World :=
  {| time_now := time_now w;
     open_proc_status := None;
     read_ret := read_ret w;
     dlopen := dlopen w;
     opendir_maps := opendir_maps w;
     stat_ok := stat_ok w;
     system_property_get := system_property_get w;
     long_bits := long_bits w;
     clock_start := clock_start w;
     clock_end := clock_end w;
     prctl_set_dumpable_ok := prctl_set_dumpable_ok w;
     prctl_set_name_ok := prctl_set_name_ok w;
     open_cmdline_ok := open_cmdline_ok w;
     write_cmdline_ok := write_cmdline_ok w;
     pthread_create_ok := pthread_create_ok w |}.

(** The world [w], except for the content of the status file. *)
Definition with_status (file : string) (w : World) : World :=
  {| time_now := time_now w;
     open_proc_status := Some file;
     read_ret := read_ret w;
     dlopen := dlopen w;
     opendir_maps := opendir_maps w;
     stat_ok := stat_ok w;
     system_property_get := system_property_get w;
     long_bits := long_bits w;
     clock_start := clock_start w;
     clock_end := clock_end w;
     prctl_set_dumpable_ok := prctl_set_dumpable_ok w;
     prctl_set_name_ok := prctl_set_name_ok w;
     open_cmdline_ok := open_cmdline_ok w;
     write_cmdline_ok := write_cmdline_ok w;
     pthread_create_ok := pthread_create_ok w |}.

(** The world [w], except that [pthread_create] fails. *)
Definition no_threads (w : World) : World :=
  {| time_now := time_now w;
     open_proc_status := open_proc_status w;
     read_ret := read_ret w;
     dlopen := dlopen w;
     opendir_maps := opendir_maps w;
     stat_ok := stat_ok w;
     system_property_get := system_property_get w;
     long_bits := long_bits w;
     clock_start := clock_start w;
     clock_end := clock_end w;
     prctl_set_dumpable_ok := prctl_set_dumpable_ok w;
     prctl_set_name_ok := prctl_set_name_ok w;
     open_cmdline_ok := open_cmdline_ok w;
     write_cmdline_ok := write_cmdline_ok w;
     pthread_create_ok := false |}.

(** Nothing suspicious at all. *)
Definition quiet (now : Z) : World := world now false false false false false.

(** Globals with the given level and an empty emulator cache. *)
Definition at_level (level : Z) : State :=
  set_gSecurityLevel level
    (set_gSecurityThreadRunning true initial_state).

End Samples.

(* ================================================================== *)
(** * Properties *)
(* ================================================================== *)

Ltac unfold_monad :=
  unfold forget, bind, ret, gets, modify, emit, result, state_after, effects in *.

(** ** The emulator collector and its cache *)

(** [detectEmulator] in closed form. *)
Lemma detectEmulator_unfold (w : World) (s : State) :
  detectEmulator w s =
  if cache_fresh (time_now w) s
  then (gIsEmulator s, s, [])
  else (emulator_scan w,
        set_gIsEmulator (emulator_scan w)
          (set_gLastEmulatorCheck (time_now w) s),
        [EvEmulatorProbe]).
Proof.
  unfold detectEmulator, cache_fresh. unfold_monad.
  destruct ((time_now w - gLastEmulatorCheck s <? 60)
            && negb (gLastEmulatorCheck s =? 0)); reflexivity.
Qed.

Lemma detectEmulator_keeps_level (w : World) (s : State) :
  gSecurityLevel (state_after (detectEmulator w s)) = gSecurityLevel s.
Proof.
  rewrite detectEmulator_unfold.
  destruct (cache_fresh (time_now w) s); reflexivity.
Qed.

Lemma detectEmulator_keeps_running (w : World) (s : State) :
  gSecurityThreadRunning (state_after (detectEmulator w s))
  = gSecurityThreadRunning s.
Proof.
  rewrite detectEmulator_unfold.
  destruct (cache_fresh (time_now w) s); reflexivity.
Qed.

Lemma detectEmulator_no_thread (w : World) (s : State) :
  spawned (effects (detectEmulator w s)) = []
  /\ thread_creations (effects (detectEmulator w s)) = O.
Proof.
  rewrite detectEmulator_unfold.
  destruct (cache_fresh (time_now w) s); split; reflexivity.
Qed.

(** Any computation, split into its three components. *)
Lemma run_split {A} (r : A * State * list Event) :
  r = (result r, state_after r, effects r).
Proof. destruct r as [[a s] e]. reflexivity. Qed.

(** ** The level setter *)

Lemma setSecurityLevel_unfold (level : Z) (s : State) :
  setSecurityLevel level s =
  if (1 <=? level) && (level <=? 3)
  then (tt, set_gSecurityLevel level s, [])
  else (tt, s, []).
Proof.
  unfold setSecurityLevel.
  destruct ((1 <=? level) && (level <=? 3)); reflexivity.
Qed.

Lemma in_range_valid (level : Z) :
  (1 <=? level) && (level <=? 3) = true <-> valid_level level.
Proof.
  unfold valid_level. rewrite andb_true_iff, !Z.leb_le. lia.
Qed.

Lemma setSecurityLevel_valid (level : Z) (s : State) :
  valid_level (gSecurityLevel s) ->
  valid_level (gSecurityLevel (state_after (setSecurityLevel level s))).
Proof.
  intros Hs. rewrite setSecurityLevel_unfold.
  destruct ((1 <=? level) && (level <=? 3)) eqn:E; cbn; [|exact Hs].
  now apply in_range_valid.
Qed.

(** ** The loop body, seen from outside *)

(** The loop body in closed form: probe effects, then the reaction if a
    threat was seen, then the sleep. *)
Lemma body_unfold (w : World) (c : Z) (s : State) :
  securityMonitorThread_body w c s =
  (c + 1,
   after_probes w c s,
   (if Z.rem c 10 =? 0 then effects (detectEmulator w s) else [])
   ++ (if threat_detected w c s then reaction w c (gSecurityLevel s) else [])
   ++ [EvSleep (sleep_time_for (gSecurityLevel s) * 1000)]).
Proof.
  unfold securityMonitorThread_body, threat_detected, after_probes, reaction.
  pose proof (detectEmulator_keeps_level w s) as Hl.
  destruct (Z.rem c 10 =? 0) eqn:E10.
  - unfold bind at 1. unfold bind at 1.
    rewrite (run_split (detectEmulator w s)) at 1.
    rewrite (run_split (detectEmulator w s)) in Hl. unfold state_after at 1 in Hl.
    cbn [fst snd] in Hl.
    set (emu := result (detectEmulator w s)) in *.
    set (s1 := state_after (detectEmulator w s)) in *.
    set (ev := effects (detectEmulator w s)) in *.
    cbn [ret fst snd].
    destruct (isBeingTraced w), (isHookingFrameworkPresent w),
      (if Z.rem c 5 =? 0 then detectTimingAnomaly w else false),
      emu, (detectVirtualEnvironment w); cbn [orb];
      unfold_monad; unfold obfuscateMemory, blockPtraceAttach, spoofProcessName;
      unfold_monad; cbn [fst snd]; rewrite Hl;
      destruct (gSecurityLevel s >=? 3), (gSecurityLevel s >=? 2),
        (Z.rem c 20 =? 0); cbn;
      try destruct (system_procs_at (Z.rem c 4)); cbn;
      rewrite ?Hl, ?app_nil_r; reflexivity.
  - unfold_monad. cbn [fst snd].
    destruct (isBeingTraced w), (isHookingFrameworkPresent w),
      (if Z.rem c 5 =? 0 then detectTimingAnomaly w else false); cbn [orb];
      unfold obfuscateMemory, blockPtraceAttach, spoofProcessName;
      unfold_monad; cbn [fst snd];
      destruct (gSecurityLevel s >=? 3), (gSecurityLevel s >=? 2),
        (Z.rem c 20 =? 0); cbn;
      try destruct (system_procs_at (Z.rem c 4)); cbn; reflexivity.
Qed.

(* ================================================================== *)
(** ** IsBeingAnalyzed *)
(* ================================================================== *)

Lemma isBeingAnalyzedNative_unfold (w : World) (s : State) :
  result (Java_com_aiassistant_core_ai_AIStateManager_isBeingAnalyzedNative w s) =
  let traced := isBeingTraced w in
  let hooked := isHookingFrameworkPresent w in
  let timing_anomaly := detectTimingAnomaly w in
  let in_emulator := result (detectEmulator w s) in
  if gSecurityLevel s >=? 3 then traced || hooked || timing_anomaly || in_emulator
  else if gSecurityLevel s >=? 2 then traced || hooked || timing_anomaly
  else traced || hooked.
Proof.
  unfold Java_com_aiassistant_core_ai_AIStateManager_isBeingAnalyzedNative.
  pose proof (detectEmulator_keeps_level w s) as Hl.
  unfold bind at 1. rewrite (run_split (detectEmulator w s)) at 1.
  unfold_monad. cbn [fst snd] in *. rewrite Hl.
  destruct (gSecurityLevel s >=? 3), (gSecurityLevel s >=? 2); reflexivity.
Qed.

(** The sample worlds realise every combination of the four signals that
    IsBeingAnalyzed combines (and of the fifth, which it does not read). *)
Lemma sample_world_signals (now : Z) (t h ti e v : bool) (s : State) :
  cache_fresh now s = false ->
  let w := Samples.world now t h ti e v in
  isBeingTraced w = t
  /\ isHookingFrameworkPresent w = h
  /\ detectTimingAnomaly w = ti
  /\ result (detectEmulator w s) = e
  /\ detectVirtualEnvironment w = v.
Proof.
  intros Hc w. subst w. rewrite detectEmulator_unfold. cbn [time_now Samples.world].
  rewrite Hc.
  destruct t, h, ti, e, v; repeat split; vm_compute; reflexivity.
Qed.

(** C1 - IsBeingAnalyzed.  With the four signals as the collectors report
    them in this call: at level 3 the answer is the disjunction of all four;
    at level 2 it is Traced or Hooked or TimingAnomalous; at level 1 it is
    Traced or Hooked, whatever TimingAnomalous and Emulated are. *)
Theorem isBeingAnalyzed_by_level (w : World) (s : State) :
  let traced := isBeingTraced w in
  let hooked := isHookingFrameworkPresent w in
  let timing := detectTimingAnomaly w in
  let emulated := result (detectEmulator w s) in
  let answer := result (Java_com_aiassistant_core_ai_AIStateManager_isBeingAnalyzedNative w s) in
  (gSecurityLevel s = 3 -> answer = traced || hooked || timing || emulated)
  /\ (gSecurityLevel s = 2 -> answer = traced || hooked || timing)
  /\ (gSecurityLevel s = 1 -> answer = traced || hooked).
Proof.
  cbv zeta. rewrite isBeingAnalyzedNative_unfold. cbv zeta.
  repeat split; intros ->; reflexivity.
Qed.

(** At level 3 an emulator alone makes the answer true; at level 2 a timing
    anomaly alone does while an emulator is ignored; at level 1 both are
    ignored. *)
Lemma isBeingAnalyzed_by_level_witness :
  result (Java_com_aiassistant_core_ai_AIStateManager_isBeingAnalyzedNative (Samples.world 100 false false false true false)
            (Samples.at_level 3)) = true
  /\ result (Java_com_aiassistant_core_ai_AIStateManager_isBeingAnalyzedNative (Samples.world 100 false false true true false)
               (Samples.at_level 2)) = true
  /\ result (Java_com_aiassistant_core_ai_AIStateManager_isBeingAnalyzedNative (Samples.world 100 false false true true false)
               (Samples.at_level 1)) = false.
Proof.
  split; [|split].
  - rewrite (proj1 (isBeingAnalyzed_by_level
                      (Samples.world 100 false false false true false)
                      (Samples.at_level 3)) eq_refl).
    vm_compute. reflexivity.
  - rewrite (proj1 (proj2 (isBeingAnalyzed_by_level
                      (Samples.world 100 false false true true false)
                      (Samples.at_level 2))) eq_refl).
    vm_compute. reflexivity.
  - rewrite (proj2 (proj2 (isBeingAnalyzed_by_level
                      (Samples.world 100 false false true true false)
                      (Samples.at_level 1))) eq_refl).
    vm_compute. reflexivity.
Defined.

(* ================================================================== *)
(** ** InitializeSecurity *)
(* ================================================================== *)

(** C3 - InitializeSecurity.  Afterwards the level is 3 when the emulator
    collector or the hook collector answered true in this call, and 1
    otherwise, whatever the level was before. *)
Theorem initializeNativeSecurity_level (w : World) (s : State) :
  gSecurityLevel (state_after (Java_com_aiassistant_security_AntiDetectionManager_initializeNativeSecurity w s)) =
  if result (detectEmulator w s) || isHookingFrameworkPresent w then 3 else 1.
Proof.
  unfold Java_com_aiassistant_security_AntiDetectionManager_initializeNativeSecurity.
  unfold blockPtraceAttach.
  unfold bind at 1. unfold bind at 1. unfold emit at 1. unfold ret at 1.
  unfold bind at 1. rewrite (run_split (detectEmulator w s)) at 1.
  destruct (result (detectEmulator w s) || isHookingFrameworkPresent w);
    rewrite setSecurityLevel_unfold; reflexivity.
Qed.

(* ================================================================== *)
(** ** HideProcessInfo *)
(* ================================================================== *)

(** C9 - HideProcessInfo.  For every process id and whatever [open] and
    [write] on the argument string answer, both [hideProcessInfo] and its
    JNI wrapper return true. *)
Theorem hideProcessInfo_always_true (w : World) (pid : Z) (s : State) :
  result (hideProcessInfo w pid s) = true
  /\ result (Java_com_aiassistant_security_ProcessIsolation_nativeHideProcessInfo w pid s) = true.
Proof.
  unfold Java_com_aiassistant_security_ProcessIsolation_nativeHideProcessInfo,
    hideProcessInfo.
  unfold_monad. destruct (open_cmdline_ok w); split; reflexivity.
Qed.

(** The write is attempted exactly when the open succeeded, and its outcome
    shows only in the effect, never in the result. *)
Lemma hideProcessInfo_effects (w : World) (pid : Z) (s : State) :
  effects (hideProcessInfo w pid s) =
  if open_cmdline_ok w
  then [EvWriteCmdline ("system_server" ++ String zero "")%string
          (write_cmdline_ok w)]
  else [].
Proof.
  unfold hideProcessInfo. unfold_monad. destruct (open_cmdline_ok w); reflexivity.
Qed.

(* ================================================================== *)
(** ** What each exported function does to the globals *)
(* ================================================================== *)

Lemma JNI_OnLoad_unfold (w : World) (vm : Z) (s : State) :
  JNI_OnLoad w vm s =
  if gSecurityThreadRunning s
  then (JNI_VERSION_1_6, set_gJavaVM vm s, [])
  else (JNI_VERSION_1_6,
        set_gSecurityThreadRunning true (set_gJavaVM vm s),
        [EvPthreadCreate (pthread_create_ok w)]).
Proof.
  unfold JNI_OnLoad. unfold_monad. cbn.
  destruct (gSecurityThreadRunning s); reflexivity.
Qed.

(** Unfolds an exported function down to the cache test of
    [detectEmulator] and the range test of [setSecurityLevel]. *)
Ltac open_entry :=
  unfold entry, forget,
    Java_com_aiassistant_security_ProcessIsolation_nativeSpoofProcessName,
    Java_com_aiassistant_security_ProcessIsolation_nativeHideProcessInfo,
    Java_com_aiassistant_core_ai_AIStateManager_isBeingAnalyzedNative,
    Java_com_aiassistant_security_AntiDetectionManager_initializeNativeSecurity,
    Java_com_aiassistant_security_SecurityContext_setNativeSecurityLevel,
    Java_com_aiassistant_security_AntiDetectionManager_isRunningInEmulator,
    Java_com_aiassistant_security_AntiDetectionManager_hasHookFramework,
    hideProcessInfo, spoofProcessName, blockPtraceAttach;
  unfold_monad;
  rewrite ?JNI_OnLoad_unfold, ?detectEmulator_unfold;
  repeat (first [ rewrite setSecurityLevel_unfold
                | match goal with
                  | |- context [if ?b then _ else _] => destruct b eqn:?
                  end ];
          cbn [fst snd]).

(** Apart from [JNI_OnLoad], no exported function touches the running flag
    or creates a thread. *)
Lemma entry_keeps_running (w : World) (c : Call) (s : State) :
  (forall vm, c <> OnLoad vm) ->
  gSecurityThreadRunning (state_after (entry w c s)) = gSecurityThreadRunning s
  /\ thread_creations (effects (entry w c s)) = O
  /\ spawned (effects (entry w c s)) = [].
Proof.
  intros Hc. destruct c; try (now elim (Hc vm)); open_entry; cbn; auto.
Qed.

(** Every exported function leaves a valid level valid. *)
Lemma entry_keeps_valid_level (w : World) (c : Call) (s : State) :
  valid_level (gSecurityLevel s) ->
  valid_level (gSecurityLevel (state_after (entry w c s))).
Proof.
  intros Hs. destruct c; open_entry; cbn; auto; unfold valid_level; lia.
Qed.

Lemma body_keeps_level (w : World) (c : Z) (s : State) :
  gSecurityLevel (state_after (securityMonitorThread_body w c s))
  = gSecurityLevel s.
Proof.
  rewrite body_unfold. unfold state_after, after_probes. cbn [fst snd].
  destruct (Z.rem c 10 =? 0); [apply detectEmulator_keeps_level|reflexivity].
Qed.

Lemma body_keeps_running (w : World) (c : Z) (s : State) :
  gSecurityThreadRunning (state_after (securityMonitorThread_body w c s))
  = gSecurityThreadRunning s.
Proof.
  rewrite body_unfold. unfold state_after, after_probes. cbn [fst snd].
  destruct (Z.rem c 10 =? 0); [apply detectEmulator_keeps_running|reflexivity].
Qed.

Lemma thread_creations_app (a b : list Event) :
  thread_creations (a ++ b) = (thread_creations a + thread_creations b)%nat.
Proof.
  induction a as [|e a IH]; [reflexivity|].
  destruct e; cbn; rewrite IH; reflexivity.
Qed.

Lemma reaction_no_thread (w : World) (c level : Z) :
  thread_creations (reaction w c level) = O.
Proof.
  unfold reaction.
  destruct (level >=? 3), (level >=? 2), (Z.rem c 20 =? 0);
    try destruct (system_procs_at (Z.rem c 4)); reflexivity.
Qed.

Lemma body_no_thread (w : World) (c : Z) (s : State) :
  thread_creations (effects (securityMonitorThread_body w c s)) = O.
Proof.
  rewrite body_unfold. unfold effects at 1. cbn [snd].
  rewrite !thread_creations_app.
  destruct (Z.rem c 10 =? 0), (threat_detected w c s);
    rewrite ?reaction_no_thread, ?(proj2 (detectEmulator_no_thread w s));
    reflexivity.
Qed.

Lemma update_nth_length {A} (i : nat) (x : A) (l : list A) :
  List.length (update_nth i x l) = List.length l.
Proof.
  revert i. induction l as [|h t IH]; intros [|i]; cbn; auto.
Qed.

Lemma nth_error_update_nth_same {A} (i : nat) (x : A) (l : list A) :
  (i < List.length l)%nat -> nth_error (update_nth i x l) i = Some x.
Proof.
  revert i. induction l as [|h t IH]; intros [|i] Hi; cbn in *; try lia.
  - reflexivity.
  - apply IH. lia.
Qed.

Lemma nth_error_update_nth_other {A} (i j : nat) (x : A) (l : list A) :
  i <> j -> nth_error (update_nth j x l) i = nth_error l i.
Proof.
  revert i j. induction l as [|h t IH]; intros [|i] [|j] Hne; cbn;
    try reflexivity; try congruence.
  apply IH. congruence.
Qed.

Lemma spawned_le_creations (ev : list Event) :
  (List.length (spawned ev) <= thread_creations ev)%nat.
Proof.
  unfold spawned. induction ev as [|e ev IH]; cbn; [lia|].
  destruct e as [[|]| | | | | |]; cbn; lia.
Qed.

(** ** Invariants of the process *)

Lemma surjective_pairing_process (p : Process) :
  p = {| globals := globals p; monitors := monitors p; history := history p |}.
Proof. destruct p; reflexivity. Qed.

Lemma step_invariant (w : World) (a : Action) (p : Process) :
  process_invariant p -> process_invariant (step w a p).
Proof.
  intros (Hl & Hc & Hm). destruct a as [c|i]; unfold step.
  - pose proof (entry_keeps_valid_level w c (globals p) Hl) as Hl'.
    rewrite (run_split (entry w c (globals p))).
    unfold process_invariant. cbn [globals monitors history].
    rewrite thread_creations_app, List.length_app.
    pose proof (spawned_le_creations (effects (entry w c (globals p)))) as Hs.
    split; [exact Hl'|].
    assert (Hcases : (exists vm, c = OnLoad vm) \/ (forall vm, c <> OnLoad vm))
      by (destruct c; [left; eauto | right; intros ? ?; discriminate ..]).
    destruct Hcases as [[vm ->]|Hother].
    + clear Hl' Hs. unfold entry, forget. unfold_monad.
      rewrite JNI_OnLoad_unfold.
      destruct (gSecurityThreadRunning (globals p)) eqn:Er; cbn;
        rewrite ?Er; destruct (pthread_create_ok w); cbn; lia.
    + destruct (entry_keeps_running w c (globals p) Hother) as (Hr & Ht & Hsp).
      rewrite Hr, Ht, Hsp. cbn [List.length]. lia.
  - destruct (nth_error (monitors p) i) as [[c|]|]; try (repeat split; assumption).
    destruct (gSecurityThreadRunning (globals p)) eqn:Er.
    + pose proof (body_keeps_level w c (globals p)) as Hbl.
      pose proof (body_keeps_running w c (globals p)) as Hbr.
      pose proof (body_no_thread w c (globals p)) as Hbt.
      rewrite (run_split (securityMonitorThread_body w c (globals p))).
      unfold process_invariant. cbn [globals monitors history].
      rewrite Hbl, Hbr, Er, thread_creations_app, Hbt, update_nth_length.
      repeat split; [assumption|lia|lia].
    + unfold process_invariant. cbn [globals monitors history].
      rewrite update_nth_length, Er. repeat split; assumption.
Qed.

Lemma run_invariant (sched : list (World * Action)) (p : Process) :
  process_invariant p -> process_invariant (run sched p).
Proof.
  revert p. induction sched as [|[w a] rest IH]; intros p Hp; cbn; [exact Hp|].
  apply IH, step_invariant, Hp.
Qed.

Lemma initial_invariant : process_invariant initial_process.
Proof. repeat split; cbn; unfold valid_level; auto. Qed.

(* ================================================================== *)
(** ** SetSecurityLevel *)
(* ================================================================== *)

(** C2 - SetSecurityLevel.  For a level other than 1, 2, 3 the setter and
    its JNI wrapper return with the globals exactly as they were and without
    any effect: nothing is reported to the caller.  Consequently, along any
    schedule of exported calls and monitor iterations that starts at library
    load, the level is 1, 2 or 3. *)
Theorem setSecurityLevel_out_of_range :
  (forall (level : Z) (s : State),
      ~ valid_level level ->
      setSecurityLevel level s = (tt, s, [])
      /\ Java_com_aiassistant_security_SecurityContext_setNativeSecurityLevel
           level s = (tt, s, []))
  /\ (forall sched : list (World * Action),
         valid_level (gSecurityLevel (globals (run sched initial_process)))).
Proof.
  split.
  - intros level s Hbad.
    unfold Java_com_aiassistant_security_SecurityContext_setNativeSecurityLevel.
    rewrite setSecurityLevel_unfold.
    destruct ((1 <=? level) && (level <=? 3)) eqn:E; [|split; reflexivity].
    apply in_range_valid in E. contradiction.
  - intros sched. apply (run_invariant sched initial_process initial_invariant).
Qed.

(** Level 7 requested at level 2: nothing changes. *)
Lemma setSecurityLevel_out_of_range_witness :
  ~ valid_level 7
  /\ setSecurityLevel 7 (Samples.at_level 2) = (tt, Samples.at_level 2, []).
Proof.
  assert (H : ~ valid_level 7) by (unfold valid_level; lia).
  split; [exact H|].
  exact (proj1 (proj1 setSecurityLevel_out_of_range 7 (Samples.at_level 2) H)).
Defined.

(** A level inside the range is taken over. *)
Lemma setSecurityLevel_in_range (level : Z) (s : State) :
  valid_level level ->
  setSecurityLevel level s = (tt, set_gSecurityLevel level s, []).
Proof.
  intros H. rewrite setSecurityLevel_unfold.
  apply in_range_valid in H. rewrite H. reflexivity.
Qed.

(* ================================================================== *)
(** ** Starting the monitor loop *)
(* ================================================================== *)

(** C8 - single monitor loop.  With the running flag set, [JNI_OnLoad] calls
    [pthread_create] not at all and writes no global other than [gJavaVM],
    which receives the pointer it was given; in the process the set of
    monitor threads and the history of effects stay as they are.  Along any
    schedule from library load, [pthread_create] is called at most once and
    at most one monitor thread exists. *)
Theorem monitor_started_at_most_once :
  (forall (w : World) (vm : Z) (s : State),
      gSecurityThreadRunning s = true ->
      JNI_OnLoad w vm s = (JNI_VERSION_1_6, set_gJavaVM vm s, [])
      /\ (gJavaVM s = vm -> state_after (JNI_OnLoad w vm s) = s))
  /\ (forall (w : World) (vm : Z) (p : Process),
         gSecurityThreadRunning (globals p) = true ->
         let p' := step w (Invoke (OnLoad vm)) p in
         monitors p' = monitors p
         /\ history p' = history p
         /\ globals p' = set_gJavaVM vm (globals p))
  /\ (forall sched : list (World * Action),
         let p := run sched initial_process in
         (thread_creations (history p) <= 1)%nat
         /\ (List.length (monitors p) <= 1)%nat).
Proof.
  split; [|split].
  - intros w vm s Hr. rewrite JNI_OnLoad_unfold, Hr. split; [reflexivity|].
    intros <-. destruct s; reflexivity.
  - intros w vm p Hr. unfold step, entry, forget. unfold_monad.
    rewrite JNI_OnLoad_unfold, Hr. cbn. rewrite !app_nil_r. auto.
  - intros sched.
    destruct (run_invariant sched initial_process initial_invariant)
      as (_ & Hc & Hm).
    cbv zeta.
    destruct (gSecurityThreadRunning (globals (run sched initial_process))); lia.
Qed.

(** The library is loaded twice: the second load changes nothing. *)
Lemma monitor_started_at_most_once_witness :
  let p := step (Samples.quiet 1) (Invoke (OnLoad 5)) initial_process in
  gSecurityThreadRunning (globals p) = true
  /\ step (Samples.quiet 2) (Invoke (OnLoad 5)) p = p.
Proof.
  cbv zeta. split; [reflexivity|].
  destruct (proj1 (proj2 monitor_started_at_most_once) (Samples.quiet 2) 5
              (step (Samples.quiet 1) (Invoke (OnLoad 5)) initial_process)
              eq_refl) as (Hm & Hh & Hg).
  rewrite (surjective_pairing_process
             (step (Samples.quiet 2) (Invoke (OnLoad 5))
                (step (Samples.quiet 1) (Invoke (OnLoad 5)) initial_process))).
  rewrite Hm, Hh, Hg. reflexivity.
Defined.

(** The first load sets the flag and calls [pthread_create] once. *)
Lemma JNI_OnLoad_first (w : World) (vm : Z) (s : State) :
  gSecurityThreadRunning s = false ->
  JNI_OnLoad w vm s =
  (JNI_VERSION_1_6, set_gSecurityThreadRunning true (set_gJavaVM vm s),
   [EvPthreadCreate (pthread_create_ok w)]).
Proof. intros Hr. rewrite JNI_OnLoad_unfold, Hr. reflexivity. Qed.

(* ================================================================== *)
(** ** The emulator cache *)
(* ================================================================== *)

Lemma cache_fresh_true (now : Z) (s : State) :
  cache_fresh now s = true
  <-> gLastEmulatorCheck s <> 0 /\ now - gLastEmulatorCheck s < 60.
Proof.
  unfold cache_fresh.
  rewrite andb_true_iff, negb_true_iff, Z.ltb_lt, Z.eqb_neq. tauto.
Qed.

Lemma cache_fresh_false (now : Z) (s : State) :
  cache_fresh now s = false
  <-> gLastEmulatorCheck s = 0 \/ 60 <= now - gLastEmulatorCheck s.
Proof.
  unfold cache_fresh.
  rewrite andb_false_iff, negb_false_iff, Z.ltb_ge, Z.eqb_eq. tauto.
Qed.

(** C4 - emulator cache.  In a call of [detectEmulator] at clock reading
    [now]: if the cache holds an entry (non-zero timestamp) of age below 60
    seconds, the cached boolean is returned, the scan does not run and no
    global changes; otherwise the scan runs once, its result is returned and
    stored together with [now] as the new timestamp, be it true or false; in
    particular an entry older than 60 seconds is never answered from. *)
Theorem detectEmulator_cache_contract (w : World) (s : State) :
  let now := time_now w in
  let age := now - gLastEmulatorCheck s in
  let r := detectEmulator w s in
  (gLastEmulatorCheck s <> 0 -> age < 60 -> r = (gIsEmulator s, s, []))
  /\ (gLastEmulatorCheck s = 0 \/ 60 <= age ->
      result r = emulator_scan w
      /\ effects r = [EvEmulatorProbe]
      /\ gIsEmulator (state_after r) = emulator_scan w
      /\ gLastEmulatorCheck (state_after r) = now
      /\ state_after r
         = set_gIsEmulator (emulator_scan w) (set_gLastEmulatorCheck now s))
  /\ (60 < age ->
      emulator_probes (effects r) = 1%nat /\ result r = emulator_scan w).
Proof.
  cbv zeta. rewrite detectEmulator_unfold. split; [|split].
  - intros Hne Hage.
    rewrite (proj2 (cache_fresh_true (time_now w) s) (conj Hne Hage)).
    reflexivity.
  - intros Hmiss.
    rewrite (proj2 (cache_fresh_false (time_now w) s) Hmiss).
    repeat split.
  - intros Hold.
    rewrite (proj2 (cache_fresh_false (time_now w) s)) by (right; lia).
    split; reflexivity.
Qed.

(** A scan at second 1000 finds the emulator device; asked again at second
    1059 in a world without it the collector still answers true from the
    cache; asked at second 1061 it scans again and answers false. *)
Lemma detectEmulator_cache_contract_witness :
  let s0 := Samples.at_level 1 in
  let s1 := state_after
              (detectEmulator (Samples.world 1000 false false false true false) s0) in
  (gLastEmulatorCheck s0 = 0
   /\ result (detectEmulator (Samples.world 1000 false false false true false) s0)
      = true)
  /\ (gLastEmulatorCheck s1 <> 0 /\ 1059 - gLastEmulatorCheck s1 < 60
      /\ detectEmulator (Samples.quiet 1059) s1 = (true, s1, []))
  /\ (60 < 1061 - gLastEmulatorCheck s1
      /\ result (detectEmulator (Samples.quiet 1061) s1) = false).
Proof.
  cbv zeta. split; [|split].
  - split; [reflexivity|].
    exact (proj1 (proj1 (proj2 (detectEmulator_cache_contract
             (Samples.world 1000 false false false true false)
             (Samples.at_level 1))) (or_introl eq_refl))).
  - assert (Hne : gLastEmulatorCheck
                    (state_after
                       (detectEmulator
                          (Samples.world 1000 false false false true false)
                          (Samples.at_level 1))) <> 0)
      by (vm_compute; discriminate).
    assert (Hage : 1059 - gLastEmulatorCheck
                    (state_after
                       (detectEmulator
                          (Samples.world 1000 false false false true false)
                          (Samples.at_level 1))) < 60)
      by (vm_compute; reflexivity).
    split; [exact Hne|split; [exact Hage|]].
    exact (proj1 (detectEmulator_cache_contract (Samples.quiet 1059) _) Hne Hage).
  - assert (Hold : 60 < 1061 - gLastEmulatorCheck
                    (state_after
                       (detectEmulator
                          (Samples.world 1000 false false false true false)
                          (Samples.at_level 1))))
      by (vm_compute; reflexivity).
    split; [exact Hold|].
    exact (proj2 (proj2 (proj2 (detectEmulator_cache_contract
                                  (Samples.quiet 1061) _)) Hold)).
Defined.

(** The collector implements [get_or_compute] of the specification on the
    representation [cache_repr], as long as the clock does not read 0. *)
Lemma detectEmulator_refines_get_or_compute
  (w : World) (s : State) (cache : option EnvironmentCacheEntry) :
  cache_repr s cache ->
  time_now w <> 0 ->
  let spec := spec_get_or_compute (time_now w) (emulator_scan w) cache in
  let r := detectEmulator w s in
  result r = fst (fst spec)
  /\ cache_repr (state_after r) (snd (fst spec))
  /\ emulator_probes (effects r) = (if snd spec then 1 else 0)%nat.
Proof.
  intros Hrepr Hnow. cbv zeta. rewrite detectEmulator_unfold.
  unfold spec_get_or_compute, TTL, cache_fresh.
  destruct cache as [e|]; cbn [cache_repr] in Hrepr.
  - destruct Hrepr as (Hts & Hv & Hnz). rewrite Hts.
    destruct (time_now w - entry_timestamp e <? 60);
      destruct (entry_timestamp e =? 0) eqn:Ez;
      try (apply Z.eqb_eq in Ez; contradiction);
      cbn; repeat split; auto.
  - rewrite Hrepr. rewrite andb_false_r. cbn. repeat split; auto.
Qed.

(** The one clock reading the representation cannot tell from "no entry":
    a result stored at second 0 is not recognised ten seconds later. *)
Lemma detectEmulator_epoch_zero :
  let s1 := state_after (detectEmulator (Samples.quiet 0) initial_state) in
  effects (detectEmulator (Samples.quiet 10) s1) = [EvEmulatorProbe].
Proof. reflexivity. Qed.

(* ================================================================== *)
(** ** Reactions of the monitor loop *)
(* ================================================================== *)

Lemma spoofed_names_app (a b : list Event) :
  spoofed_names (a ++ b) = spoofed_names a ++ spoofed_names b.
Proof.
  induction a as [|e a IH]; [reflexivity|].
  destruct e; cbn; rewrite IH; reflexivity.
Qed.

Lemma noise_allocations_app (a b : list Event) :
  noise_allocations (a ++ b) = (noise_allocations a + noise_allocations b)%nat.
Proof.
  induction a as [|e a IH]; [reflexivity|].
  destruct e; cbn; rewrite IH; reflexivity.
Qed.

Lemma detectEmulator_quiet (w : World) (s : State) :
  spoofed_names (effects (detectEmulator w s)) = []
  /\ noise_allocations (effects (detectEmulator w s)) = O.
Proof.
  rewrite detectEmulator_unfold.
  destruct (cache_fresh (time_now w) s); split; reflexivity.
Qed.

(** A multiple of 20 is a multiple of 4, also under the truncating
    remainder of C and for negative counters. *)
Lemma rem_20_rem_4 (c : Z) : Z.rem c 20 = 0 -> Z.rem c 4 = 0.
Proof.
  intros H. apply Z.rem_divide in H; [|lia]. destruct H as [k ->].
  apply Z.rem_divide; [lia|]. exists (5 * k). lia.
Qed.

Lemma system_procs_on_20th (c : Z) :
  Z.rem c 20 = 0 -> system_procs_at (Z.rem c 4) = Some "system_server".
Proof. intros H. rewrite (rem_20_rem_4 c H). reflexivity. Qed.

(** The names the loop body hands to [prctl(PR_SET_NAME, _)]. *)
Lemma body_spoofed_names (w : World) (c : Z) (s : State) :
  spoofed_names (effects (securityMonitorThread_body w c s)) =
  if threat_detected w c s && (Z.rem c 20 =? 0) then ["system_server"] else [].
Proof.
  rewrite body_unfold. unfold effects at 1. cbn [snd].
  rewrite !spoofed_names_app.
  assert (Hprobe : spoofed_names
                     (if Z.rem c 10 =? 0 then effects (detectEmulator w s) else [])
                   = []).
  { destruct (Z.rem c 10 =? 0); [apply detectEmulator_quiet|reflexivity]. }
  rewrite Hprobe. cbn [app spoofed_names]. rewrite app_nil_r.
  destruct (threat_detected w c s); [|reflexivity]. cbn [andb].
  unfold reaction. rewrite spoofed_names_app.
  assert (Hgate : forall l : Z,
             spoofed_names
               (if l >=? 3
                then [EvNoiseAlloc 1024; EvSetDumpable (prctl_set_dumpable_ok w)]
                else if l >=? 2 then [EvSetDumpable (prctl_set_dumpable_ok w)]
                else []) = []).
  { intros l. destruct (l >=? 3), (l >=? 2); reflexivity. }
  rewrite Hgate. cbn [app].
  destruct (Z.rem c 20 =? 0) eqn:E; [|reflexivity].
  apply Z.eqb_eq in E. rewrite (system_procs_on_20th c E). reflexivity.
Qed.

(** The noise buffers the loop body allocates. *)
Lemma body_noise_allocations (w : World) (c : Z) (s : State) :
  noise_allocations (effects (securityMonitorThread_body w c s)) =
  if threat_detected w c s && (gSecurityLevel s >=? 3) then 1%nat else 0%nat.
Proof.
  rewrite body_unfold. unfold effects at 1. cbn [snd].
  rewrite !noise_allocations_app.
  assert (Hprobe : noise_allocations
                     (if Z.rem c 10 =? 0 then effects (detectEmulator w s) else [])
                   = O).
  { destruct (Z.rem c 10 =? 0); [apply detectEmulator_quiet|reflexivity]. }
  rewrite Hprobe. cbn [noise_allocations Nat.add]. rewrite Nat.add_0_r.
  destruct (threat_detected w c s); [|reflexivity]. cbn [andb].
  unfold reaction. rewrite noise_allocations_app.
  destruct (gSecurityLevel s >=? 3), (gSecurityLevel s >=? 2), (Z.rem c 20 =? 0);
    try destruct (system_procs_at (Z.rem c 4)); reflexivity.
Qed.

Lemma only_timing_is_threat (w : World) (c : Z) (s : State) :
  only_timing_anomalous w c s -> threat_detected w c s = true.
Proof.
  intros (Ht & Hh & (H5 & Hti) & _). unfold threat_detected.
  rewrite Ht, Hh, H5, Hti. reflexivity.
Qed.

(** The loop, one iteration unrolled. *)
Lemma securityMonitorLoop_unfold (w : World) (ws : list World) (c : Z) (s : State) :
  securityMonitorLoop (w :: ws) c s =
  if gSecurityThreadRunning s then
    let r := securityMonitorThread_body w c s in
    let r' := securityMonitorLoop ws (result r) (state_after r) in
    (result r', state_after r', effects r ++ effects r')
  else (c, s, []).
Proof.
  cbn [securityMonitorLoop]. unfold bind at 1. unfold gets at 1.
  destruct (gSecurityThreadRunning s); [|reflexivity].
  unfold bind.
  destruct (securityMonitorThread_body w c s) as [[n s1] e1].
  unfold result, state_after, effects. cbn [fst snd].
  destruct (securityMonitorLoop ws n s1) as [[r s2] e2]. reflexivity.
Qed.

Lemma loop_spoofed_names (ws : list World) (c : Z) (s : State) :
  Forall (eq "system_server")
    (spoofed_names (effects (securityMonitorLoop ws c s))).
Proof.
  revert c s. induction ws as [|w ws IH]; intros c s.
  - constructor.
  - rewrite securityMonitorLoop_unfold.
    destruct (gSecurityThreadRunning s); [|constructor].
    cbv zeta. unfold effects at 1. cbn [snd].
    rewrite spoofed_names_app. apply Forall_app. split; [|apply IH].
    rewrite body_spoofed_names.
    destruct (threat_detected w c s && (Z.rem c 20 =? 0)); repeat constructor.
Qed.

(* ================================================================== *)
(** ** Identity rotation *)
(* ================================================================== *)

(** C5, as stated, fails.  Iteration 20 at level 1 in a world where no probe
    reports anything: the counter is divisible by 20, no signal is true, and
    the body calls [prctl(PR_SET_NAME, _)] not at all.  Hence it is not true
    that every iteration with a counter divisible by 20 spoofs the name
    selected by the counter modulo 4. *)
Lemma spoof_skipped_without_threat :
  (Z.rem 20 20 = 0
   /\ threat_detected (Samples.quiet 100) 20 (Samples.at_level 1) = false
   /\ spoofed_names
        (effects (securityMonitorThread_body (Samples.quiet 100) 20
                    (Samples.at_level 1))) = [])
  /\ ~ (forall (w : World) (c : Z) (s : State),
          Z.rem c 20 = 0 ->
          exists name,
            system_procs_at (Z.rem c 4) = Some name
            /\ In name (spoofed_names
                          (effects (securityMonitorThread_body w c s)))).
Proof.
  split; [repeat split; vm_compute; reflexivity|].
  intros H.
  destruct (H (Samples.quiet 100) 20 (Samples.at_level 1) eq_refl)
    as (name & _ & Hin).
  vm_compute in Hin. exact Hin.
Qed.

(** C5, amended - identity rotation.  In an iteration whose counter is
    divisible by 20, the body spoofs the process name exactly when one of the
    signals evaluated in that iteration is true, and then exactly once, to
    the entry of the rotation selected by the counter modulo 4; without a
    true signal it does not spoof. *)
Theorem spoof_on_20th_under_threat (w : World) (c : Z) (s : State) :
  Z.rem c 20 = 0 ->
  exists name,
    system_procs_at (Z.rem c 4) = Some name
    /\ spoofed_names (effects (securityMonitorThread_body w c s))
       = if threat_detected w c s then [name] else [].
Proof.
  intros H. exists "system_server". split; [apply system_procs_on_20th, H|].
  rewrite body_spoofed_names.
  apply Z.eqb_eq in H. rewrite H, andb_true_r. reflexivity.
Qed.

(** Iteration 40 with a tracer attached, at level 1: one spoof. *)
Lemma spoof_on_20th_under_threat_witness :
  Z.rem 40 20 = 0
  /\ exists name,
       system_procs_at (Z.rem 40 4) = Some name
       /\ spoofed_names
            (effects (securityMonitorThread_body
                        (Samples.world 100 true false false false false) 40
                        (Samples.at_level 1)))
          = [name].
Proof.
  split; [reflexivity|].
  destruct (spoof_on_20th_under_threat
              (Samples.world 100 true false false false false) 40
              (Samples.at_level 1) eq_refl) as (name & Hsel & Hnames).
  exists name. split; [exact Hsel|]. exact Hnames.
Defined.

(** C10 - the rotation never rotates.  Whenever the loop body spoofs, the
    counter is divisible by 20 and therefore by 4, the selected index is 0
    and the name is "system_server"; over any number of loop iterations from
    any counter, every spoofed name is "system_server" and none of the other
    three entries of the rotation is ever used. *)
Theorem spoof_always_system_server :
  (forall (w : World) (c : Z) (s : State) (name : string),
      In name (spoofed_names (effects (securityMonitorThread_body w c s))) ->
      Z.rem c 20 = 0
      /\ Z.rem c 4 = 0
      /\ system_procs_at (Z.rem c 4) = Some name
      /\ name = "system_server")
  /\ (forall (ws : list World) (c : Z) (s : State) (name : string),
         In name (spoofed_names (effects (securityMonitorLoop ws c s))) ->
         name = "system_server")
  /\ (forall (ws : list World) (s : State) (name : string),
         In name ["zygote"; "media"; "surfaceflinger"] ->
         ~ In name (spoofed_names (effects (securityMonitorThread ws s)))).
Proof.
  split; [|split].
  - intros w c s name Hin. rewrite body_spoofed_names in Hin.
    destruct (threat_detected w c s); cbn [andb] in Hin; [|contradiction].
    destruct (Z.rem c 20 =? 0) eqn:E; [|contradiction].
    apply Z.eqb_eq in E. destruct Hin as [<-|[]].
    repeat split; auto using rem_20_rem_4, system_procs_on_20th.
  - intros ws c s name Hin.
    pose proof (loop_spoofed_names ws c s) as Hall.
    rewrite Forall_forall in Hall. symmetry. apply Hall, Hin.
  - intros ws s name Hother Hin.
    pose proof (loop_spoofed_names ws 0 s) as Hall.
    rewrite Forall_forall in Hall. apply Hall in Hin. subst name.
    cbn in Hother. destruct Hother as [H|[H|[H|[]]]]; discriminate.
Qed.

(** Iteration 20 with a hook framework present: the one spoofed name is the
    first entry. *)
Lemma spoof_always_system_server_witness :
  In "system_server"
     (spoofed_names
        (effects (securityMonitorThread_body
                    (Samples.world 100 false true false false false) 20
                    (Samples.at_level 2))))
  /\ Z.rem 20 4 = 0.
Proof.
  assert (Hin : In "system_server"
                  (spoofed_names
                     (effects (securityMonitorThread_body
                                 (Samples.world 100 false true false false false)
                                 20 (Samples.at_level 2)))))
    by (vm_compute; left; reflexivity).
  split; [exact Hin|].
  exact (proj1 (proj2 (proj1 spoof_always_system_server _ _ _ _ Hin))).
Defined.

(* ================================================================== *)
(** ** Noise injection and the timing signal *)
(* ================================================================== *)

(** C6, as stated, fails.  Iteration 5 at level 3 in a world where only the
    timing benchmark is slow: the timing signal is the only true signal and
    the body allocates a noise buffer.  Hence iterations exist in which
    noise injection fires on the timing signal alone. *)
Lemma noise_fires_on_timing_alone :
  (only_timing_anomalous (Samples.world 100 false false true false false) 5
     (Samples.at_level 3)
   /\ noise_allocations
        (effects (securityMonitorThread_body
                    (Samples.world 100 false false true false false) 5
                    (Samples.at_level 3))) = 1%nat)
  /\ ~ (forall (w : World) (c : Z) (s : State),
          only_timing_anomalous w c s ->
          noise_allocations (effects (securityMonitorThread_body w c s)) = O).
Proof.
  assert (Honly : only_timing_anomalous
                    (Samples.world 100 false false true false false) 5
                    (Samples.at_level 3)).
  { repeat split; try (vm_compute; reflexivity); intros H; vm_compute in H;
      discriminate. }
  split; [split; [exact Honly|vm_compute; reflexivity]|].
  intros H. specialize (H _ _ _ Honly). vm_compute in H. discriminate.
Qed.

(** C6, amended - noise injection on the timing signal alone.  In an
    iteration in which TimingAnomalous is the only signal that evaluated
    true, noise injection fires once when the level is 3 or more and does
    not fire when the level is below 3. *)
Theorem noise_on_timing_alone_by_level (w : World) (c : Z) (s : State) :
  only_timing_anomalous w c s ->
  (3 <= gSecurityLevel s ->
   noise_allocations (effects (securityMonitorThread_body w c s)) = 1%nat)
  /\ (gSecurityLevel s < 3 ->
      noise_allocations (effects (securityMonitorThread_body w c s)) = O).
Proof.
  intros Honly. rewrite body_noise_allocations.
  rewrite (only_timing_is_threat w c s Honly). cbn [andb].
  split; intros Hl.
  - replace (gSecurityLevel s >=? 3) with true; [reflexivity|].
    symmetry. apply Z.geb_le. exact Hl.
  - replace (gSecurityLevel s >=? 3) with false; [reflexivity|].
    symmetry. rewrite Z.geb_leb. apply Z.leb_gt. exact Hl.
Qed.

(** A slow benchmark alone, iteration 5: a buffer at level 3, none at
    level 2. *)
Lemma noise_on_timing_alone_by_level_witness :
  noise_allocations
    (effects (securityMonitorThread_body
                (Samples.world 100 false false true false false) 5
                (Samples.at_level 3))) = 1%nat
  /\ noise_allocations
       (effects (securityMonitorThread_body
                   (Samples.world 100 false false true false false) 5
                   (Samples.at_level 2))) = O.
Proof.
  assert (Honly : forall level,
             only_timing_anomalous
               (Samples.world 100 false false true false false) 5
               (Samples.at_level level)).
  { intros level. repeat split; try (vm_compute; reflexivity);
      intros H; vm_compute in H; discriminate. }
  split.
  - apply (proj1 (noise_on_timing_alone_by_level _ _ _ (Honly 3))).
    vm_compute. discriminate.
  - apply (proj2 (noise_on_timing_alone_by_level _ _ _ (Honly 2))).
    vm_compute. reflexivity.
Defined.

(* ================================================================== *)
(** ** The C string functions *)
(* ================================================================== *)

Section CStrings.

Lemma starts_with_app (n r : string) : starts_with n (n ++ r)%string = true.
Proof.
  induction n as [|a n IH]; cbn; [reflexivity|].
  rewrite Ascii.eqb_refl. exact IH.
Qed.

(** Only the first [length n] bytes matter to [starts_with n]. *)
Lemma starts_with_cut (n v : string) (k : nat) :
  (String.length n <= k)%nat ->
  starts_with n v = starts_with n (substring 0 k v).
Proof.
  revert v k. induction n as [|a n IH]; intros v k Hk; [reflexivity|].
  cbn [String.length] in Hk. destruct k as [|k]; [lia|].
  destruct v as [|b v]; cbn; [reflexivity|].
  rewrite (IH v k) by lia. reflexivity.
Qed.

Lemma starts_with_cut_app (n u v : string) (k : nat) :
  (String.length n <= String.length u + k)%nat ->
  starts_with n (u ++ v)%string = starts_with n (u ++ substring 0 k v)%string.
Proof.
  revert n. induction u as [|b u IH]; intros n Hk.
  - cbn in *. apply starts_with_cut, Hk.
  - destruct n as [|a n]; [reflexivity|]. cbn in *.
    rewrite (IH n) by lia. reflexivity.
Qed.

(** If the needle does not occur in the prefix, not even overlapping into
    what follows, the search continues behind the prefix. *)
Lemma strstr_skip_prefix (pre tail needle : string) :
  contains (pre ++ substring 0 (String.length needle - 1) tail) needle = false ->
  strstr (pre ++ tail) needle = strstr tail needle.
Proof.
  unfold contains. induction pre as [|a pre IH]; intros H; [reflexivity|].
  cbn [append strstr] in *.
  pose proof (starts_with_cut_app needle (String a pre) tail
                (String.length needle - 1)) as Hcut.
  cbn [append String.length] in Hcut. rewrite Hcut by lia. clear Hcut.
  destruct (starts_with needle
              (String a (pre ++ substring 0 (String.length needle - 1) tail)));
    [discriminate|].
  apply IH, H.
Qed.

Lemma strstr_here (needle rest : string) :
  strstr (needle ++ rest) needle = Some (needle ++ rest)%string.
Proof.
  destruct (needle ++ rest)%string eqn:E; cbn [strstr];
    rewrite <- E, starts_with_app; reflexivity.
Qed.

Lemma append_assoc (a b c : string) :
  ((a ++ b) ++ c = a ++ (b ++ c))%string.
Proof. induction a as [|x a IH]; cbn; [reflexivity|]. now rewrite IH. Qed.

Lemma length_append (a b : string) :
  String.length (a ++ b) = (String.length a + String.length b)%nat.
Proof. induction a as [|x a IH]; cbn; [reflexivity|]. now rewrite IH. Qed.

Lemma advance_app (n r : string) : advance (String.length n) (n ++ r) = r.
Proof. induction n as [|a n IH]; cbn; auto. Qed.

Lemma c_str_app (a b : string) :
  all_bytes not_nul a = true -> c_str (a ++ b) = (a ++ c_str b)%string.
Proof.
  induction a as [|c a IH]; cbn; intros H; [reflexivity|].
  apply andb_true_iff in H. destruct H as [Hc Ha].
  unfold not_nul in Hc. apply negb_true_iff in Hc. rewrite Hc, (IH Ha).
  reflexivity.
Qed.

Lemma substring_app_prefix (a b : string) (n : nat) :
  (String.length a <= n)%nat ->
  substring 0 n (a ++ b) = (a ++ substring 0 (n - String.length a) b)%string.
Proof.
  revert n. induction a as [|c a IH]; intros n Hn; cbn in *.
  - rewrite Nat.sub_0_r. reflexivity.
  - destruct n as [|n]; [lia|]. cbn. rewrite (IH n) by lia. reflexivity.
Qed.

Lemma all_bytes_app (p : ascii -> bool) (a b : string) :
  all_bytes p (a ++ b) = all_bytes p a && all_bytes p b.
Proof.
  induction a as [|c a IH]; cbn; [reflexivity|].
  rewrite IH, andb_assoc. reflexivity.
Qed.

Lemma all_bytes_weaken (p q : ascii -> bool) (s : string) :
  (forall c, p c = true -> q c = true) ->
  all_bytes p s = true -> all_bytes q s = true.
Proof.
  intros Hpq. induction s as [|c s IH]; cbn; [reflexivity|].
  rewrite !andb_true_iff. intros [Hc Hs]. auto.
Qed.

Lemma code_zero : code zero = 0.
Proof. reflexivity. Qed.

Lemma nonzero_code_not_nul (c : ascii) : code c <> 0 -> not_nul c = true.
Proof.
  intros H. unfold not_nul. apply negb_true_iff, Ascii.eqb_neq.
  intros ->. apply H, code_zero.
Qed.

Lemma is_digit_code (c : ascii) :
  is_digit c = true -> 48 <= code c <= 57 /\ digit_of c = Some (code c - 48).
Proof.
  unfold is_digit, digit_of.
  destruct ((48 <=? code c) && (code c <=? 57)) eqn:E; [|discriminate].
  intros _. apply andb_true_iff in E. rewrite !Z.leb_le in E. auto.
Qed.

Lemma digit_not_nul (c : ascii) : is_digit c = true -> not_nul c = true.
Proof.
  intros H. apply nonzero_code_not_nul.
  destruct (is_digit_code c H) as [Hr _]. lia.
Qed.

Lemma space_not_nul (c : ascii) : isspace c = true -> not_nul c = true.
Proof.
  intros H. apply nonzero_code_not_nul. unfold isspace in H.
  apply orb_true_iff in H. rewrite andb_true_iff, Z.eqb_eq, !Z.leb_le in H. lia.
Qed.

Lemma digit_not_space (c : ascii) : is_digit c = true -> isspace c = false.
Proof.
  intros H. destruct (is_digit_code c H) as [Hr _]. unfold isspace.
  apply orb_false_iff. rewrite andb_false_iff, Z.eqb_neq, !Z.leb_gt. lia.
Qed.

Lemma digit_not_sign (c : ascii) :
  is_digit c = true -> Ascii.eqb c "-" = false /\ Ascii.eqb c "+" = false.
Proof.
  intros H. split; apply Ascii.eqb_neq; intros ->; discriminate H.
Qed.

Lemma skip_space_blanks (blanks t : string) :
  all_bytes isspace blanks = true ->
  skip_space (blanks ++ t) = skip_space t.
Proof.
  induction blanks as [|c b IH]; cbn; intros H; [reflexivity|].
  apply andb_true_iff in H. destruct H as [Hc Hb]. rewrite Hc. auto.
Qed.

Lemma scan_digits_app (ds t : string) (a : Z) :
  all_bytes is_digit ds = true ->
  ends_number t = true ->
  scan_digits (ds ++ t) (Some a) = Some (decimal_from a ds).
Proof.
  revert a. induction ds as [|c ds IH]; intros a Hds Ht.
  - cbn. destruct t as [|c t]; [reflexivity|]. cbn in *.
    unfold is_digit in Ht. destruct (digit_of c); [discriminate|reflexivity].
  - cbn in Hds. apply andb_true_iff in Hds. destruct Hds as [Hc Hds].
    destruct (is_digit_code c Hc) as [_ Hd].
    cbn [append scan_digits decimal_from]. rewrite Hd. apply IH; assumption.
Qed.

(** The conversions of [sscanf] leave a number that fits an [int] as it
    is. *)
Lemma int_of_intmax_small (v : Z) :
  - 2 ^ 31 <= v < 2 ^ 31 -> int_of_intmax (strtoimax_range v) = v.
Proof.
  intros Hv. unfold int_of_intmax, strtoimax_range, wrap_signed.
  change (2 ^ (32 - 1)) with 2147483648 in *.
  change (2 ^ 31) with 2147483648 in *.
  change (2 ^ 32) with 4294967296.
  change (2 ^ 63) with 9223372036854775808.
  rewrite Z.min_r, Z.max_r by lia.
  rewrite Z.mod_small by lia. lia.
Qed.

(** [sscanf("%d")] on blanks followed by a run of digits reads the number
    the digits denote, converted to an [int]. *)
Lemma sscanf_d_number (blanks ds t : string) :
  all_bytes isspace blanks = true ->
  all_bytes is_digit ds = true ->
  ds <> EmptyString ->
  ends_number t = true ->
  sscanf_d (blanks ++ ds ++ t)
  = Some (int_of_intmax (strtoimax_range (decimal_value ds))).
Proof.
  intros Hb Hds Hne Ht. unfold sscanf_d.
  rewrite (skip_space_blanks blanks _ Hb).
  destruct ds as [|c ds]; [contradiction|].
  cbn in Hds. apply andb_true_iff in Hds. destruct Hds as [Hc Hds].
  cbn [append skip_space]. rewrite (digit_not_space c Hc).
  destruct (digit_not_sign c Hc) as [-> ->].
  destruct (is_digit_code c Hc) as [_ Hd].
  cbv zeta. cbn [scan_digits]. rewrite Hd.
  unfold decimal_value. cbn [decimal_from].
  rewrite scan_digits_app by assumption. reflexivity.
Qed.

Lemma ends_number_cut (rest : string) (k : nat) :
  ends_number rest = true -> ends_number (c_str (substring 0 k rest)) = true.
Proof.
  destruct rest as [|c r]; destruct k as [|k]; cbn; try reflexivity.
  destruct (Ascii.eqb c zero); [reflexivity|]. cbn. auto.
Qed.

(** A string of digits denotes 0 exactly when all its digits are '0'. *)
Lemma decimal_from_nonneg (ds : string) (a : Z) :
  all_bytes is_digit ds = true -> 0 <= a -> a <= decimal_from a ds.
Proof.
  revert a. induction ds as [|c ds IH]; intros a Hds Ha;
    cbn [decimal_from]; [lia|].
  cbn [all_bytes] in Hds. apply andb_true_iff in Hds. destruct Hds as [Hc Hds].
  destruct (is_digit_code c Hc) as [Hr _].
  specialize (IH (10 * a + (code c - 48)) Hds). lia.
Qed.

Lemma decimal_value_zero (ds : string) :
  all_bytes is_digit ds = true ->
  (decimal_value ds = 0 <-> all_bytes (fun c => Ascii.eqb c "0") ds = true).
Proof.
  unfold decimal_value. induction ds as [|c ds IH]; intros Hds; [cbn; tauto|].
  cbn [all_bytes] in Hds. apply andb_true_iff in Hds. destruct Hds as [Hc Hds].
  destruct (is_digit_code c Hc) as [Hr _].
  cbn [decimal_from all_bytes]. rewrite andb_true_iff, Ascii.eqb_eq.
  split.
  - intros H0.
    pose proof (decimal_from_nonneg ds (10 * 0 + (code c - 48)) Hds
                  ltac:(lia)) as Hle.
    assert (Hcode : code c = 48) by lia.
    assert (Hc0 : c = "0"%char).
    { unfold code in Hcode.
      rewrite <- (ascii_N_embedding c), <- (ascii_N_embedding "0"%char).
      f_equal. apply N2Z.inj. exact Hcode. }
    split; [exact Hc0|]. apply IH; [exact Hds|].
    subst c. exact H0.
  - intros [-> Hz]. apply IH; assumption.
Qed.

End CStrings.

(* ================================================================== *)
(** ** Trace detection *)
(* ================================================================== *)

Section TraceDetection.

(** [isBeingTraced] as a chain of the four steps that can fail. *)
Lemma isBeingTraced_unfold (w : World) :
  isBeingTraced w =
  match open_proc_status w with
  | None => false
  | Some file =>
      if fst (sys_read w file 511) <=? 0 then false
      else match strstr (c_str (snd (sys_read w file 511))) "TracerPid:" with
           | None => false
           | Some line =>
               match sscanf_d (advance 10 line) with
               | None => false
               | Some tracer_pid => negb (tracer_pid =? 0)
               end
           end
  end.
Proof.
  unfold isBeingTraced. destruct (open_proc_status w) as [file|]; [|reflexivity].
  change (512 - 1) with 511.
  destruct (sys_read w file 511) as [num_read bytes]. reflexivity.
Qed.

(** What [read] leaves in the buffer when the kernel delivers at least the
    first [String.length head] bytes of a file that begins with [head]. *)
Lemma sys_read_head (w : World) (head rest : string) :
  (0 < String.length head)%nat ->
  Z.of_nat (String.length head) <= read_ret w ->
  Z.of_nat (String.length head) <= 511 ->
  exists k : nat,
    0 < fst (sys_read w (head ++ rest) 511)
    /\ snd (sys_read w (head ++ rest) 511) = (head ++ substring 0 k rest)%string.
Proof.
  intros Hpos Hret Hbuf. unfold sys_read. cbn [fst snd].
  set (n := Z.min (read_ret w)
              (Z.min 511 (Z.of_nat (String.length (head ++ rest))))).
  pose proof (length_append head rest) as Hlen.
  assert (Hn : Z.of_nat (String.length head) <= n) by (subst n; rewrite Hlen; lia).
  exists (Z.to_nat n - String.length head)%nat. split; [lia|].
  replace (n <=? 0) with false by (symmetry; apply Z.leb_gt; lia).
  apply substring_app_prefix. lia.
Qed.

(** What the probe does, step by step.  (1) It answers true exactly when
    the status file could be opened, [read] delivered at least one byte, the
    text "TracerPid:" occurs in the buffer, a number could be read behind
    its first occurrence, and that number, as an [int], is not 0.  (2) It
    answers false whenever the file cannot be opened, cannot be read, holds
    no such text or holds no number there.  (3) On a status file in which
    the first "TracerPid:" is the tracer line, followed by blanks and the
    decimal tracer id, and lies within the bytes that were read, the answer
    tells whether that id, converted to an [int], is not 0; for an id that
    fits an [int], whether the id is not 0. *)
Theorem isBeingTraced_reports_tracer :
  (forall w : World,
      isBeingTraced w = true <->
      exists file line tracer_pid,
        open_proc_status w = Some file
        /\ 0 < fst (sys_read w file 511)
        /\ strstr (c_str (snd (sys_read w file 511))) "TracerPid:" = Some line
        /\ sscanf_d (advance 10 line) = Some tracer_pid
        /\ tracer_pid <> 0)
  /\ (forall w : World,
         (open_proc_status w = None
          \/ exists file,
               open_proc_status w = Some file
               /\ (fst (sys_read w file 511) <= 0
                   \/ strstr (c_str (snd (sys_read w file 511))) "TracerPid:"
                      = None
                   \/ exists line,
                        strstr (c_str (snd (sys_read w file 511))) "TracerPid:"
                        = Some line
                        /\ sscanf_d (advance 10 line) = None)) ->
         isBeingTraced w = false)
  /\ (forall (w : World) (pre blanks digits rest : string),
         open_proc_status w
         = Some (pre ++ "TracerPid:" ++ blanks ++ digits ++ rest)%string ->
         contains (pre ++ "TracerPid") "TracerPid:" = false ->
         all_bytes not_nul pre = true ->
         all_bytes isspace blanks = true ->
         all_bytes is_digit digits = true ->
         digits <> EmptyString ->
         ends_number rest = true ->
         Z.of_nat (String.length (pre ++ "TracerPid:" ++ blanks ++ digits))
         <= Z.min (read_ret w) 511 ->
         isBeingTraced w
         = negb (int_of_intmax (strtoimax_range (decimal_value digits)) =? 0)
         /\ (decimal_value digits < 2 ^ 31 ->
             isBeingTraced w = negb (decimal_value digits =? 0))).
Proof.
  split; [|split].
  - intros w. rewrite isBeingTraced_unfold. split.
    + destruct (open_proc_status w) as [file|]; [|discriminate].
      destruct (fst (sys_read w file 511) <=? 0) eqn:Er; [discriminate|].
      destruct (strstr (c_str (snd (sys_read w file 511))) "TracerPid:")
        as [line|] eqn:Es; [|discriminate].
      destruct (sscanf_d (advance 10 line)) as [pid|] eqn:Ep; [|discriminate].
      intros Hnz. apply negb_true_iff, Z.eqb_neq in Hnz.
      apply Z.leb_gt in Er. exists file, line, pid. auto.
    + intros (file & line & pid & Ho & Hr & Hs & Hp & Hnz).
      rewrite Ho. apply Z.leb_gt in Hr. rewrite Hr, Hs, Hp.
      apply negb_true_iff, Z.eqb_neq, Hnz.
  - intros w H. rewrite isBeingTraced_unfold.
    destruct H as [->|(file & -> & [Hr|[Hs|(line & Hs & Hp)]])]; [reflexivity| | |].
    + apply Z.leb_le in Hr. rewrite Hr. reflexivity.
    + rewrite Hs. destruct (fst (sys_read w file 511) <=? 0); reflexivity.
    + rewrite Hs, Hp. destruct (fst (sys_read w file 511) <=? 0); reflexivity.
  - intros w pre blanks digits rest Ho Hfirst Hpre Hb Hd Hne He Hlen.
    rewrite isBeingTraced_unfold, Ho.
    set (head := (pre ++ "TracerPid:" ++ blanks ++ digits)%string) in *.
    assert (Hfile : (pre ++ "TracerPid:" ++ blanks ++ digits ++ rest)%string
                    = (head ++ rest)%string).
    { subst head. rewrite !append_assoc. reflexivity. }
    rewrite Hfile.
    assert (Hpos : (0 < String.length head)%nat).
    { subst head. rewrite length_append. cbn. lia. }
    destruct (sys_read_head w head rest Hpos ltac:(lia) ltac:(lia))
      as (k & Hn & Hbytes).
    apply Z.leb_gt in Hn. rewrite Hn, Hbytes.
    assert (Hnul : all_bytes not_nul head = true).
    { subst head. rewrite !all_bytes_app, Hpre.
      rewrite (all_bytes_weaken isspace not_nul blanks space_not_nul Hb).
      rewrite (all_bytes_weaken is_digit not_nul digits digit_not_nul Hd).
      reflexivity. }
    rewrite (c_str_app head _ Hnul).
    set (tail := c_str (substring 0 k rest)).
    assert (Htail : ends_number tail = true) by (apply ends_number_cut, He).
    replace (head ++ tail)%string
      with (pre ++ ("TracerPid:" ++ blanks ++ digits ++ tail))%string.
    2:{ subst head. rewrite !append_assoc. reflexivity. }
    rewrite strstr_skip_prefix by exact Hfirst.
    rewrite (strstr_here "TracerPid:" (blanks ++ digits ++ tail)).
    change 10%nat with (String.length "TracerPid:").
    rewrite advance_app.
    rewrite (sscanf_d_number blanks digits tail Hb Hd Hne Htail).
    split; [reflexivity|]. intros Hsmall.
    rewrite int_of_intmax_small; [reflexivity|].
    pose proof (decimal_from_nonneg digits 0 Hd ltac:(lia)) as Hnn.
    unfold decimal_value. split; [|exact Hsmall].
    change (2 ^ 31) with 2147483648. lia.
Qed.

End TraceDetection.

(** A tracer with process id 815 is reported; an unreadable status file is
    not a signal. *)
Lemma isBeingTraced_reports_tracer_witness :
  isBeingTraced (Samples.world 100 true false false false false) = true
  /\ isBeingTraced
       (Samples.unreadable_status
          (Samples.world 100 true false false false false)) = false.
Proof.
  split.
  - rewrite (proj1 (proj2 (proj2 isBeingTraced_reports_tracer)
                      (Samples.world 100 true false false false false)
                      (Samples.status_head "com.aiassistant") Samples.TAB "815"
                      Samples.status_tail eq_refl eq_refl eq_refl eq_refl
                      eq_refl ltac:(discriminate)
                      eq_refl ltac:(vm_compute; discriminate))).
    vm_compute. reflexivity.
  - apply (proj1 (proj2 isBeingTraced_reports_tracer)).
    left. reflexivity.
Defined.

(** C7 - trace detection.  The probe is meant to report whether the tracer
    identifier of the status file is non-zero, but it takes whatever follows
    the first occurrence of the text "TracerPid:" for that field.  For a
    process that was named "TracerPid:5" and has no tracer, the status file
    read field by field gives the tracer identifier 0, and the probe answers
    true; the same file for a process named "com.aiassistant" is answered
    with false. *)
Theorem isBeingTraced_takes_name_for_tracer_field :
  let file := Samples.status_text "TracerPid:5" "0" in
  spec_status_field "Name" file = Some "TracerPid:5"
  /\ spec_status_field "TracerPid" file = Some "0"
  /\ isBeingTraced (Samples.with_status file (Samples.quiet 100)) = true
  /\ isBeingTraced
       (Samples.with_status (Samples.status_text "com.aiassistant" "0")
          (Samples.quiet 100)) = false.
Proof. cbv zeta. repeat split; vm_compute; reflexivity. Qed.

(** A tracer id that does not fit an [int] is stored truncated: 2^32 reads
    as 0. *)
Example isBeingTraced_truncates_to_int :
  isBeingTraced
    (Samples.with_status (Samples.status_text "com.aiassistant" "4294967296")
       (Samples.quiet 100)) = false.
Proof. vm_compute. reflexivity. Qed.

(* ================================================================== *)
(** ** Substring search, and what the scans look for *)
(* ================================================================== *)

Section Scans.

Lemma starts_with_iff (n s : string) :
  starts_with n s = true <-> exists post, s = (n ++ post)%string.
Proof.
  split.
  - revert s. induction n as [|a n IH]; intros s H.
    + exists s. reflexivity.
    + destruct s as [|b s]; [discriminate|]. cbn in H.
      apply andb_true_iff in H. destruct H as [Hab Hs].
      apply Ascii.eqb_eq in Hab. subst b.
      destruct (IH s Hs) as [post ->]. exists post. reflexivity.
  - intros [post ->]. apply starts_with_app.
Qed.

(** [strstr] finds the needle exactly when it occurs somewhere. *)
Lemma contains_iff (s needle : string) :
  contains s needle = true
  <-> exists pre post, s = (pre ++ needle ++ post)%string.
Proof.
  unfold contains. split.
  - induction s as [|a s IH]; cbn [strstr].
    + destruct (starts_with needle "") eqn:E; [|discriminate].
      intros _. apply starts_with_iff in E. destruct E as [post E].
      exists EmptyString, post. exact E.
    + destruct (starts_with needle (String a s)) eqn:E.
      * intros _. apply starts_with_iff in E. destruct E as [post E].
        exists EmptyString, post. exact E.
      * intros H. destruct (IH H) as (pre & post & ->).
        exists (String a pre), post. reflexivity.
  - intros (pre & post & ->). induction pre as [|a pre IH].
    + cbn [append]. rewrite strstr_here. reflexivity.
    + cbn [append strstr].
      destruct (starts_with needle (String a (pre ++ needle ++ post)));
        [reflexivity|exact IH].
Qed.

(** X2 - what counts as an emulator.  The scan of [detectEmulator] answers
    true exactly when one of the seven listed properties has a value in
    which one of the ten listed tokens occurs as a substring, or one of the
    seven listed files exists.  Nothing else is looked at; in particular no
    property is compared with a whole value. *)
Theorem emulator_scan_iff (w : World) :
  emulator_scan w = true <->
  (exists prop token pre post,
      In prop emulator_props
      /\ In token emulator_values
      /\ system_property_get w prop = (pre ++ token ++ post)%string)
  \/ (exists file, In file emulator_files /\ stat_ok w file = true).
Proof.
  unfold emulator_scan.
  destruct (existsb
              (fun prop =>
                 existsb (fun value => contains (system_property_get w prop) value)
                   emulator_values) emulator_props) eqn:E.
  - split; [intros _|reflexivity]. left.
    apply existsb_exists in E. destruct E as (prop & Hp & E).
    apply existsb_exists in E. destruct E as (token & Ht & E).
    apply contains_iff in E. destruct E as (pre & post & E).
    exists prop, token, pre, post. auto.
  - rewrite existsb_exists. split; [intros H; right; exact H|].
    intros [(prop & token & pre & post & Hp & Ht & Hv)|H]; [|exact H].
    exfalso.
    assert (Hhit : existsb
                     (fun prop =>
                        existsb
                          (fun value => contains (system_property_get w prop) value)
                          emulator_values) emulator_props = true).
    { apply existsb_exists. exists prop. split; [exact Hp|].
      apply existsb_exists. exists token. split; [exact Ht|].
      apply contains_iff. exists pre, post. exact Hv. }
    rewrite Hhit in E. discriminate.
Qed.

(** The source comments expect "1" in [ro.kernel.qemu] and "unknown" in
    [ro.bootloader]; neither value holds a listed token. *)
Example emulator_scan_misses_qemu_flag :
  emulator_scan
    {| time_now := 100; open_proc_status := None; read_ret := 0;
       dlopen := fun _ => false; opendir_maps := None;
       stat_ok := fun _ => false;
       system_property_get := fun name =>
         if String.eqb name "ro.kernel.qemu" then "1"
         else if String.eqb name "ro.bootloader" then "unknown"
         else "";
       long_bits := 64;
       clock_start := {| tv_sec := 0; tv_nsec := 0 |};
       clock_end := {| tv_sec := 0; tv_nsec := 0 |};
       prctl_set_dumpable_ok := true; prctl_set_name_ok := fun _ => true;
       open_cmdline_ok := false; write_cmdline_ok := false;
       pthread_create_ok := true |} = false.
Proof. reflexivity. Qed.

(** X3 - what counts as a hook framework.  [isHookingFrameworkPresent]
    answers true exactly when the Xposed or the Substrate library can be
    loaded, or [/proc/self/maps] can be opened as a directory and one of its
    entry names holds "frida", or one of the five Magisk paths exists, or
    the property [ro.magisk.hide] has a non-empty value. *)
Theorem isHookingFrameworkPresent_iff (w : World) :
  isHookingFrameworkPresent w = true <->
  dlopen w "libxposed_art.so" = true
  \/ dlopen w "libsubstrate.so" = true
  \/ (exists entries d_name pre post,
         opendir_maps w = Some entries
         /\ In d_name entries
         /\ d_name = (pre ++ "frida" ++ post)%string)
  \/ (exists path, In path magisk_paths /\ stat_ok w path = true)
  \/ system_property_get w "ro.magisk.hide" <> EmptyString.
Proof.
  unfold isHookingFrameworkPresent, detectMagiskHooks.
  destruct (dlopen w "libxposed_art.so"); [tauto|].
  destruct (dlopen w "libsubstrate.so"); [tauto|].
  assert (Hmaps :
            match opendir_maps w with
            | Some entries => existsb (fun d_name => contains d_name "frida") entries
            | None => false
            end = true
            <-> exists entries d_name pre post,
                opendir_maps w = Some entries
                /\ In d_name entries
                /\ d_name = (pre ++ "frida" ++ post)%string).
  { destruct (opendir_maps w) as [entries|].
    - rewrite existsb_exists. split.
      + intros (d & Hin & Hc). apply contains_iff in Hc.
        destruct Hc as (pre & post & Hd). exists entries, d, pre, post. auto.
      + intros (entries' & d & pre & post & He & Hin & Hd).
        injection He as <-. exists d. split; [exact Hin|].
        apply contains_iff. exists pre, post. exact Hd.
    - split; [discriminate|]. intros (? & ? & ? & ? & He & _). discriminate. }
  destruct (match opendir_maps w with
            | Some entries => existsb (fun d_name => contains d_name "frida") entries
            | None => false
            end).
  { split; [intros _|reflexivity]. right. right. left. apply Hmaps. reflexivity. }
  assert (Hnomaps : ~ exists entries d_name pre post,
                      opendir_maps w = Some entries
                      /\ In d_name entries
                      /\ d_name = (pre ++ "frida" ++ post)%string).
  { intros H. apply Hmaps in H. discriminate. }
  destruct (existsb (stat_ok w) magisk_paths) eqn:Em.
  { split; [intros _|reflexivity]. right. right. right. left.
    apply existsb_exists in Em. exact Em. }
  assert (Hnofile : ~ exists path, In path magisk_paths /\ stat_ok w path = true).
  { intros H. apply existsb_exists in H. rewrite H in Em. discriminate. }
  destruct (system_property_get w "ro.magisk.hide") as [|c v]; cbn.
  - split; [discriminate|].
    intros [H|[H|[H|[H|H]]]]; try discriminate; contradiction.
  - split; [intros _|reflexivity]. right. right. right. right. discriminate.
Qed.

End Scans.

(* ================================================================== *)
(** ** Using the emulator cache *)
(* ================================================================== *)

(** A call that finds the cache holding [value] with a stamp other than 0
    and younger than 60 seconds returns [value] and does nothing else,
    whatever the other globals hold. *)
Lemma detectEmulator_hit (w : World) (s : State) :
  gLastEmulatorCheck s <> 0 ->
  time_now w - gLastEmulatorCheck s < 60 ->
  detectEmulator w s = (gIsEmulator s, s, []).
Proof.
  intros Hnz Hage. rewrite detectEmulator_unfold.
  rewrite (proj2 (cache_fresh_true (time_now w) s) (conj Hnz Hage)).
  reflexivity.
Qed.

(** X1 - a scan answers for the next 60 seconds.  Let a call of
    [detectEmulator] run the scan at a clock reading [t] other than 0.
    Then every later call that finds the two cache globals as that scan left
    them (no later scan has replaced the entry; the other globals may have
    changed), made at a clock reading below [t + 60], returns the result of
    that scan without scanning and without changing any global, whatever
    the properties and files look like by then.  As such a call changes
    nothing, this holds for any number of calls in a row. *)
Theorem detectEmulator_after_scan (w1 : World) (s : State) :
  gLastEmulatorCheck s = 0 \/ 60 <= time_now w1 - gLastEmulatorCheck s ->
  time_now w1 <> 0 ->
  let s1 := state_after (detectEmulator w1 s) in
  result (detectEmulator w1 s) = emulator_scan w1
  /\ forall (w2 : World) (s2 : State),
       gLastEmulatorCheck s2 = gLastEmulatorCheck s1 ->
       gIsEmulator s2 = gIsEmulator s1 ->
       time_now w2 - time_now w1 < 60 ->
       detectEmulator w2 s2 = (emulator_scan w1, s2, []).
Proof.
  intros Hmiss Hnz. cbv zeta.
  rewrite (detectEmulator_unfold w1 s).
  rewrite (proj2 (cache_fresh_false (time_now w1) s) Hmiss).
  cbn [result state_after fst snd]. split; [reflexivity|].
  intros w2 s2 Hstamp Hvalue Hsoon. cbn in Hstamp, Hvalue.
  rewrite (detectEmulator_hit w2 s2), Hvalue; [reflexivity| |]; rewrite Hstamp;
    assumption.
Qed.

(** A scan at second 1000 sees the emulator device.  At second 1030 the
    device is gone and the level has been set to 2 in between: the answer
    is still true and nothing is scanned. *)
Lemma detectEmulator_after_scan_witness :
  let w1 := Samples.world 1000 false false false true false in
  let s2 := set_gSecurityLevel 2 (state_after (detectEmulator w1 initial_state)) in
  detectEmulator (Samples.quiet 1030) s2 = (true, s2, []).
Proof.
  cbv zeta.
  pose proof (detectEmulator_after_scan
                (Samples.world 1000 false false false true false)
                initial_state
                (or_introl eq_refl)
                ltac:(cbn; discriminate)) as H.
  cbv zeta in H. destruct H as [_ H].
  apply H; [reflexivity|reflexivity|cbn; reflexivity].
Defined.

(* ================================================================== *)
(** ** IsBeingAnalyzed, continued *)
(* ================================================================== *)

Lemma detectEmulator_ignores_level (w : World) (level : Z) (s : State) :
  result (detectEmulator w (set_gSecurityLevel level s))
  = result (detectEmulator w s).
Proof.
  rewrite !detectEmulator_unfold.
  change (cache_fresh (time_now w) (set_gSecurityLevel level s))
    with (cache_fresh (time_now w) s).
  destruct (cache_fresh (time_now w) s); reflexivity.
Qed.

(** X4 - a higher level never hides an analysis.  In the same world and
    with the same emulator cache, if IsBeingAnalyzed answers true at one
    level it answers true at every level above it. *)
Theorem isBeingAnalyzed_monotone_in_level
  (w : World) (s : State) (low high : Z) :
  low <= high ->
  result (Java_com_aiassistant_core_ai_AIStateManager_isBeingAnalyzedNative w
            (set_gSecurityLevel low s)) = true ->
  result (Java_com_aiassistant_core_ai_AIStateManager_isBeingAnalyzedNative w
            (set_gSecurityLevel high s)) = true.
Proof.
  intros Hle. rewrite !isBeingAnalyzedNative_unfold. cbv zeta.
  rewrite !detectEmulator_ignores_level. cbn [gSecurityLevel set_gSecurityLevel].
  destruct (low >=? 3) eqn:L3, (low >=? 2) eqn:L2,
           (high >=? 3) eqn:H3, (high >=? 2) eqn:H2;
    rewrite ?Z.geb_leb, ?Z.leb_le, ?Z.leb_gt in *; try lia;
    destruct (isBeingTraced w), (isHookingFrameworkPresent w),
      (detectTimingAnomaly w), (result (detectEmulator w s));
    cbn; intros H; try reflexivity; discriminate H.
Qed.

(** A slow benchmark alone: reported at level 2, hence at level 3. *)
Lemma isBeingAnalyzed_monotone_in_level_witness :
  result (Java_com_aiassistant_core_ai_AIStateManager_isBeingAnalyzedNative
            (Samples.world 100 false false true false false)
            (set_gSecurityLevel 3 initial_state)) = true.
Proof.
  apply (isBeingAnalyzed_monotone_in_level
           (Samples.world 100 false false true false false)
           initial_state 2 3).
  - lia.
  - vm_compute. reflexivity.
Defined.

(** X5 - IsBeingAnalyzed always consults the emulator collector.  At every
    level, also at levels 1 and 2 where the emulator signal does not enter
    the answer, the call leaves the globals and the effects that one call of
    [detectEmulator] leaves: it may run the scan and refresh the cache, and
    it changes nothing else. *)
Theorem isBeingAnalyzed_refreshes_cache (w : World) (s : State) :
  let r := Java_com_aiassistant_core_ai_AIStateManager_isBeingAnalyzedNative w s in
  state_after r = state_after (detectEmulator w s)
  /\ effects r = effects (detectEmulator w s)
  /\ gSecurityLevel (state_after r) = gSecurityLevel s
  /\ gSecurityThreadRunning (state_after r) = gSecurityThreadRunning s
  /\ gJavaVM (state_after r) = gJavaVM s.
Proof.
  cbv zeta.
  unfold Java_com_aiassistant_core_ai_AIStateManager_isBeingAnalyzedNative.
  unfold_monad. rewrite !detectEmulator_unfold.
  destruct (cache_fresh (time_now w) s); cbn [fst snd];
    repeat match goal with
           | |- context [if ?b then _ else _] => destruct b
           end;
    cbn; rewrite ?app_nil_r; repeat split.
Qed.

(* ================================================================== *)
(** ** One iteration of the monitor loop *)
(* ================================================================== *)

Lemma set_dumpable_calls_app (a b : list Event) :
  set_dumpable_calls (a ++ b)
  = (set_dumpable_calls a + set_dumpable_calls b)%nat.
Proof.
  induction a as [|e a IH]; [reflexivity|].
  destruct e; cbn; rewrite IH; reflexivity.
Qed.

Lemma sleeps_app (a b : list Event) : sleeps (a ++ b) = sleeps a ++ sleeps b.
Proof.
  induction a as [|e a IH]; [reflexivity|].
  destruct e; cbn; rewrite IH; reflexivity.
Qed.

Lemma noise_bytes_app (a b : list Event) :
  noise_bytes (a ++ b) = noise_bytes a + noise_bytes b.
Proof.
  induction a as [|e a IH]; [reflexivity|].
  destruct e; cbn [app noise_bytes]; rewrite IH; lia.
Qed.

Lemma emulator_probes_app (a b : list Event) :
  emulator_probes (a ++ b) = (emulator_probes a + emulator_probes b)%nat.
Proof.
  induction a as [|e a IH]; [reflexivity|].
  destruct e; cbn; rewrite IH; reflexivity.
Qed.

(** The effects of [detectEmulator] under the views. *)
Lemma detectEmulator_views (w : World) (s : State) :
  set_dumpable_calls (effects (detectEmulator w s)) = O
  /\ sleeps (effects (detectEmulator w s)) = []
  /\ noise_bytes (effects (detectEmulator w s)) = 0
  /\ (emulator_probes (effects (detectEmulator w s)) <= 1)%nat.
Proof.
  rewrite detectEmulator_unfold.
  destruct (cache_fresh (time_now w) s); cbn; repeat split; lia.
Qed.

Lemma reaction_views (w : World) (c level : Z) :
  set_dumpable_calls (reaction w c level) = (if level >=? 2 then 1 else 0)%nat
  /\ noise_allocations (reaction w c level) = (if level >=? 3 then 1 else 0)%nat
  /\ noise_bytes (reaction w c level) = (if level >=? 3 then 1024 else 0)
  /\ sleeps (reaction w c level) = []
  /\ emulator_probes (reaction w c level) = O.
Proof.
  unfold reaction.
  destruct (level >=? 3) eqn:E3, (level >=? 2) eqn:E2;
    rewrite ?Z.geb_leb, ?Z.leb_le, ?Z.leb_gt in *; try lia;
    destruct (Z.rem c 20 =? 0);
    try destruct (system_procs_at (Z.rem c 4)); cbn; repeat split.
Qed.

Lemma threat_detected_false (w : World) (c : Z) (s : State) :
  isBeingTraced w = false ->
  isHookingFrameworkPresent w = false ->
  (Z.rem c 5 = 0 -> detectTimingAnomaly w = false) ->
  (Z.rem c 10 = 0 ->
   result (detectEmulator w s) = false /\ detectVirtualEnvironment w = false) ->
  threat_detected w c s = false.
Proof.
  intros Ht Hh Hti Hslow. unfold threat_detected. rewrite Ht, Hh. cbn [orb].
  destruct (Z.rem c 5 =? 0) eqn:E5.
  - apply Z.eqb_eq in E5. rewrite (Hti E5). cbn [orb].
    destruct (Z.rem c 10 =? 0) eqn:E10; [|reflexivity].
    apply Z.eqb_eq in E10. destruct (Hslow E10) as [-> ->]. reflexivity.
  - cbn [orb]. destruct (Z.rem c 10 =? 0) eqn:E10; [|reflexivity].
    apply Z.eqb_eq in E10. destruct (Hslow E10) as [-> ->]. reflexivity.
Qed.

Lemma body_effects (w : World) (c : Z) (s : State) :
  effects (securityMonitorThread_body w c s)
  = (if Z.rem c 10 =? 0 then effects (detectEmulator w s) else [])
    ++ (if threat_detected w c s then reaction w c (gSecurityLevel s) else [])
    ++ [EvSleep (sleep_time_for (gSecurityLevel s) * 1000)].
Proof. rewrite body_unfold. reflexivity. Qed.

(** X6 - no signal, no counter-measure.  In an iteration in which every
    probe that was evaluated answered false, the body does nothing but the
    emulator probe (on every tenth iteration) and the sleep: no noise
    buffer, no [prctl] call of either kind, also at level 3 and also when
    the counter is divisible by 20.  Probes that are not evaluated in this
    iteration cannot trigger anything. *)
Theorem monitor_iteration_without_signal (w : World) (c : Z) (s : State) :
  isBeingTraced w = false ->
  isHookingFrameworkPresent w = false ->
  (Z.rem c 5 = 0 -> detectTimingAnomaly w = false) ->
  (Z.rem c 10 = 0 ->
   result (detectEmulator w s) = false /\ detectVirtualEnvironment w = false) ->
  effects (securityMonitorThread_body w c s)
  = (if Z.rem c 10 =? 0 then effects (detectEmulator w s) else [])
    ++ [EvSleep (sleep_time_for (gSecurityLevel s) * 1000)].
Proof.
  intros Ht Hh Hti Hslow. rewrite body_effects.
  rewrite (threat_detected_false w c s Ht Hh Hti Hslow). reflexivity.
Qed.

(** Iteration 7 at level 3: the benchmark is slow and a container marker
    exists, but neither probe runs in this iteration; only the sleep
    happens. *)
Lemma monitor_iteration_without_signal_witness :
  effects (securityMonitorThread_body
             (Samples.world 100 false false true false true) 7
             (Samples.at_level 3))
  = [EvSleep 100000].
Proof.
  rewrite (monitor_iteration_without_signal
             (Samples.world 100 false false true false true) 7
             (Samples.at_level 3));
    try reflexivity; intros H; vm_compute in H; discriminate H.
Defined.

(** X7 - the tiers of the reaction.  In an iteration in which a signal is
    true: at level 3 or more the body allocates one noise buffer of 1024
    bytes and calls [prctl(PR_SET_DUMPABLE, 0)] once; at level 2 it makes
    the [prctl] call and allocates nothing; at level 1 or less it does
    neither. *)
Theorem monitor_reaction_by_level (w : World) (c : Z) (s : State) :
  threat_detected w c s = true ->
  let ev := effects (securityMonitorThread_body w c s) in
  (3 <= gSecurityLevel s ->
   noise_allocations ev = 1%nat /\ noise_bytes ev = 1024
   /\ set_dumpable_calls ev = 1%nat)
  /\ (gSecurityLevel s = 2 ->
      noise_allocations ev = O /\ noise_bytes ev = 0
      /\ set_dumpable_calls ev = 1%nat)
  /\ (gSecurityLevel s <= 1 ->
      noise_allocations ev = O /\ noise_bytes ev = 0
      /\ set_dumpable_calls ev = O).
Proof.
  intros Hthreat. cbv zeta. rewrite body_effects, Hthreat.
  rewrite !noise_allocations_app, !noise_bytes_app, !set_dumpable_calls_app.
  destruct (reaction_views w c (gSecurityLevel s)) as (Hd & Hn & Hb & _ & _).
  rewrite Hd, Hn, Hb.
  assert (Hprobe :
            noise_allocations
              (if Z.rem c 10 =? 0 then effects (detectEmulator w s) else []) = O
            /\ noise_bytes
                 (if Z.rem c 10 =? 0 then effects (detectEmulator w s) else []) = 0
            /\ set_dumpable_calls
                 (if Z.rem c 10 =? 0 then effects (detectEmulator w s) else []) = O).
  { destruct (Z.rem c 10 =? 0); [|repeat split].
    destruct (detectEmulator_views w s) as (H1 & _ & H3 & _).
    destruct (detectEmulator_quiet w s) as (_ & H2). auto. }
  destruct Hprobe as (-> & -> & ->). cbn [noise_allocations noise_bytes
    set_dumpable_calls Nat.add].
  split; [|split]; intros Hl;
    destruct (gSecurityLevel s >=? 3) eqn:E3, (gSecurityLevel s >=? 2) eqn:E2;
    rewrite ?Z.geb_leb, ?Z.leb_le, ?Z.leb_gt in *; try lia;
    repeat split.
Qed.

(** A tracer is attached in iteration 3: at level 2 one [prctl] call and no
    noise. *)
Lemma monitor_reaction_by_level_witness :
  let ev := effects (securityMonitorThread_body
                       (Samples.world 100 true false false false false) 3
                       (Samples.at_level 2)) in
  noise_allocations ev = O /\ noise_bytes ev = 0 /\ set_dumpable_calls ev = 1%nat.
Proof.
  cbv zeta.
  exact (proj1 (proj2 (monitor_reaction_by_level
                         (Samples.world 100 true false false false false) 3
                         (Samples.at_level 2) eq_refl)) eq_refl).
Defined.

Lemma body_sleeps (w : World) (c : Z) (s : State) :
  sleeps (effects (securityMonitorThread_body w c s))
  = [sleep_time_for (gSecurityLevel s) * 1000].
Proof.
  rewrite body_effects, !sleeps_app.
  assert (Hprobe :
            sleeps (if Z.rem c 10 =? 0 then effects (detectEmulator w s) else [])
            = []).
  { destruct (Z.rem c 10 =? 0); [apply detectEmulator_views|reflexivity]. }
  assert (Hreact :
            sleeps (if threat_detected w c s
                    then reaction w c (gSecurityLevel s) else []) = []).
  { destruct (threat_detected w c s); [apply reaction_views|reflexivity]. }
  rewrite Hprobe, Hreact. reflexivity.
Qed.

Lemma monitor_sleep_by_level_aux (w : World) (c : Z) (s : State) :
  List.length (sleeps (effects (securityMonitorThread_body w c s))) = 1%nat.
Proof.
  rewrite body_effects, !sleeps_app.
  assert (Hprobe :
            sleeps (if Z.rem c 10 =? 0 then effects (detectEmulator w s) else [])
            = []).
  { destruct (Z.rem c 10 =? 0); [apply detectEmulator_views|reflexivity]. }
  assert (Hreact :
            sleeps (if threat_detected w c s
                    then reaction w c (gSecurityLevel s) else []) = []).
  { destruct (threat_detected w c s); [apply reaction_views|reflexivity]. }
  rewrite Hprobe, Hreact. reflexivity.
Qed.

(** X8 - the polling interval.  Every iteration ends with exactly one
    [usleep]: of 100 ms at level 3, of 200 ms at level 2, and of 300 ms at
    level 1 and at every other value of the level. *)
Theorem monitor_sleep_by_level (w : World) (c : Z) (s : State) :
  sleeps (effects (securityMonitorThread_body w c s))
  = [ if gSecurityLevel s =? 3 then 100000
      else if gSecurityLevel s =? 2 then 200000
      else 300000 ]
  /\ exists before,
       effects (securityMonitorThread_body w c s)
       = before ++ [EvSleep (sleep_time_for (gSecurityLevel s) * 1000)].
Proof.
  rewrite body_effects. split.
  - rewrite !sleeps_app.
    assert (Hprobe :
              sleeps (if Z.rem c 10 =? 0 then effects (detectEmulator w s) else [])
              = []).
    { destruct (Z.rem c 10 =? 0); [apply detectEmulator_views|reflexivity]. }
    assert (Hreact :
              sleeps (if threat_detected w c s
                      then reaction w c (gSecurityLevel s) else []) = []).
    { destruct (threat_detected w c s); [apply reaction_views|reflexivity]. }
    rewrite Hprobe, Hreact. cbn [app sleeps]. unfold sleep_time_for. cbv zeta.
    destruct (gSecurityLevel s =? 3), (gSecurityLevel s =? 2),
      (gSecurityLevel s =? 1); reflexivity.
  - eexists. rewrite app_assoc. reflexivity.
Qed.

(** X9 - what an iteration does to the globals.  The body advances the
    counter by one and never writes [gJavaVM], the running flag or the
    level.  When the counter is not divisible by 10 it leaves all globals as
    they are and does not scan for an emulator; when it is, the globals
    afterwards are those one call of [detectEmulator] leaves. *)
Theorem monitor_iteration_globals (w : World) (c : Z) (s : State) :
  let r := securityMonitorThread_body w c s in
  result r = c + 1
  /\ gJavaVM (state_after r) = gJavaVM s
  /\ gSecurityThreadRunning (state_after r) = gSecurityThreadRunning s
  /\ gSecurityLevel (state_after r) = gSecurityLevel s
  /\ (Z.rem c 10 <> 0 ->
      state_after r = s /\ emulator_probes (effects r) = O)
  /\ (Z.rem c 10 = 0 -> state_after r = state_after (detectEmulator w s)).
Proof.
  cbv zeta. split; [rewrite body_unfold; reflexivity|].
  split.
  { rewrite body_unfold. unfold state_after at 1, after_probes. cbn [fst snd].
    destruct (Z.rem c 10 =? 0); [|reflexivity].
    rewrite detectEmulator_unfold.
    destruct (cache_fresh (time_now w) s); reflexivity. }
  split; [apply body_keeps_running|]. split; [apply body_keeps_level|].
  rewrite body_effects.
  assert (Hst : state_after (securityMonitorThread_body w c s)
                = after_probes w c s) by (rewrite body_unfold; reflexivity).
  rewrite Hst. unfold after_probes. split.
  - intros Hne. apply Z.eqb_neq in Hne. rewrite Hne. split; [reflexivity|].
    rewrite !emulator_probes_app. cbn.
    destruct (threat_detected w c s); [|reflexivity].
    rewrite (proj2 (proj2 (proj2 (proj2 (reaction_views w c (gSecurityLevel s)))))).
    reflexivity.
  - intros He. apply Z.eqb_eq in He. rewrite He. reflexivity.
Qed.

(** Iteration 13 in a world with an emulator: the cache stays empty. *)
Lemma monitor_iteration_globals_witness :
  state_after (securityMonitorThread_body
                 (Samples.world 100 false false false true false) 13
                 (Samples.at_level 1))
  = Samples.at_level 1.
Proof.
  apply (proj1 (proj2 (proj2 (proj2 (proj2 (monitor_iteration_globals
           (Samples.world 100 false false false true false) 13
           (Samples.at_level 1))))))).
  vm_compute. discriminate.
Defined.

(* ================================================================== *)
(** ** The monitor loop as a whole *)
(* ================================================================== *)

Lemma components_of_triple {A} (a : A) (s : State) (e : list Event) :
  result (a, s, e) = a /\ state_after (a, s, e) = s /\ effects (a, s, e) = e.
Proof. repeat split. Qed.

Ltac project_triples :=
  repeat match goal with
         | |- context [result (?a, ?s, ?e)] =>
             rewrite (proj1 (components_of_triple a s e))
         | |- context [state_after (?a, ?s, ?e)] =>
             rewrite (proj1 (proj2 (components_of_triple a s e)))
         | |- context [effects (?a, ?s, ?e)] =>
             rewrite (proj2 (proj2 (components_of_triple a s e)))
         end.

(** X10 - the loop does not end by itself.  Entered with the running flag
    set, the loop runs its body for every world it is given: the counter
    grows by the number of iterations, there is one sleep per iteration,
    and the flag and the level are afterwards what they were.  Entered with
    the flag clear, it returns at once without any effect. *)
Theorem monitor_loop_runs_while_flag_set (ws : list World) (c : Z) (s : State) :
  (gSecurityThreadRunning s = true ->
   let r := securityMonitorLoop ws c s in
   result r = c + Z.of_nat (List.length ws)
   /\ List.length (sleeps (effects r)) = List.length ws
   /\ gSecurityThreadRunning (state_after r) = true
   /\ gSecurityLevel (state_after r) = gSecurityLevel s)
  /\ (gSecurityThreadRunning s = false ->
      securityMonitorLoop (ws) c s = (c, s, [])).
Proof.
  split.
  - revert c s. induction ws as [|w ws IH]; intros c s Hrun; cbv zeta.
    + cbn. repeat split; [lia|exact Hrun].
    + rewrite securityMonitorLoop_unfold, Hrun. cbv zeta. project_triples.
      pose proof (body_keeps_running w c s) as Hr.
      pose proof (body_keeps_level w c s) as Hl.
      assert (Hres : result (securityMonitorThread_body w c s) = c + 1)
        by (rewrite body_unfold; reflexivity).
      rewrite Hrun in Hr.
      destruct (IH (result (securityMonitorThread_body w c s))
                  (state_after (securityMonitorThread_body w c s)) Hr)
        as (Hc & Hs & Hf & Hlv).
      rewrite sleeps_app, List.length_app, Hs, Hc, Hf, Hlv, Hl, Hres.
      rewrite monitor_sleep_by_level_aux. cbn [List.length].
      repeat split. lia.
  - intros Hstop. destruct ws as [|w ws]; [reflexivity|].
    rewrite securityMonitorLoop_unfold, Hstop. reflexivity.
Qed.

(** Three iterations from counter 0. *)
Lemma monitor_loop_runs_while_flag_set_witness :
  result (securityMonitorLoop
            [Samples.quiet 1; Samples.quiet 2; Samples.quiet 3] 0
            (Samples.at_level 1)) = 3
  /\ securityMonitorLoop [Samples.quiet 1] 0 initial_state
     = (0, initial_state, []).
Proof.
  split.
  - exact (proj1 (proj1 (monitor_loop_runs_while_flag_set
                           [Samples.quiet 1; Samples.quiet 2; Samples.quiet 3]
                           0 (Samples.at_level 1)) eq_refl)).
  - exact (proj2 (monitor_loop_runs_while_flag_set
                    [Samples.quiet 1] 0 initial_state) eq_refl).
Defined.

(** X11 - how much noise the loop can leak.  Over any run of the loop, at
    most one buffer is allocated per iteration, each of 1024 bytes, none is
    ever released, and below level 3 none is allocated at all. *)
Theorem monitor_loop_noise_bound (ws : list World) (c : Z) (s : State) :
  let ev := effects (securityMonitorLoop ws c s) in
  (noise_allocations ev <= List.length ws)%nat
  /\ noise_bytes ev = 1024 * Z.of_nat (noise_allocations ev)
  /\ (gSecurityLevel s < 3 -> noise_allocations ev = O).
Proof.
  cbv zeta. revert c s. induction ws as [|w ws IH]; intros c s.
  - cbn. repeat split; lia.
  - rewrite securityMonitorLoop_unfold.
    destruct (gSecurityThreadRunning s); [|cbn; repeat split; lia].
    cbv zeta. project_triples.
    rewrite !noise_allocations_app, !noise_bytes_app.
    destruct (IH (result (securityMonitorThread_body w c s))
                (state_after (securityMonitorThread_body w c s)))
      as (Hn & Hb & Hz).
    rewrite body_keeps_level in Hz.
    rewrite Hb.
    pose proof (body_noise_allocations w c s) as Hbody.
    assert (Hbytes : noise_bytes (effects (securityMonitorThread_body w c s))
                     = 1024 * Z.of_nat
                         (noise_allocations
                            (effects (securityMonitorThread_body w c s)))).
    { rewrite Hbody, body_effects, !noise_bytes_app.
      assert (Hprobe :
                noise_bytes
                  (if Z.rem c 10 =? 0 then effects (detectEmulator w s) else [])
                = 0).
      { destruct (Z.rem c 10 =? 0); [apply detectEmulator_views|reflexivity]. }
      rewrite Hprobe.
      destruct (threat_detected w c s); cbn [andb]; [|reflexivity].
      rewrite (proj1 (proj2 (proj2 (reaction_views w c (gSecurityLevel s))))).
      destruct (gSecurityLevel s >=? 3); reflexivity. }
    rewrite Hbytes.
    cbn [List.length]. split; [|split].
    + rewrite Hbody.
      destruct (threat_detected w c s && (gSecurityLevel s >=? 3)); lia.
    + lia.
    + intros Hl. rewrite (Hz Hl), Hbody.
      replace (gSecurityLevel s >=? 3) with false
        by (symmetry; rewrite Z.geb_leb; apply Z.leb_gt; exact Hl).
      rewrite andb_false_r. reflexivity.
Qed.

(** A tracer is attached throughout two iterations at level 2: nothing is
    allocated. *)
Lemma monitor_loop_noise_bound_witness :
  noise_allocations
    (effects (securityMonitorLoop
                [Samples.world 1 true false false false false;
                 Samples.world 2 true false false false false] 0
                (Samples.at_level 2))) = O.
Proof.
  apply (proj2 (proj2 (monitor_loop_noise_bound _ 0 (Samples.at_level 2)))).
  vm_compute. reflexivity.
Defined.

(* ================================================================== *)
(** ** The process, continued *)
(* ================================================================== *)

Lemma entry_keeps_level (w : World) (c : Call) (s : State) :
  calls_level_setter (Invoke c) = false ->
  gSecurityLevel (state_after (entry w c s)) = gSecurityLevel s.
Proof.
  intros Hc. destruct c; try discriminate Hc; open_entry; reflexivity.
Qed.

(** X12 - who changes the level.  A step of the process changes
    [gSecurityLevel] only if it is a call of InitializeSecurity or of
    SetSecurityLevel; no other exported function and no iteration of the
    monitor loop does. *)
Theorem level_changed_only_by_setters (w : World) (a : Action) (p : Process) :
  calls_level_setter a = false ->
  gSecurityLevel (globals (step w a p)) = gSecurityLevel (globals p).
Proof.
  intros Ha. destruct a as [c|i]; unfold step.
  - pose proof (entry_keeps_level w c (globals p) Ha) as H.
    rewrite (run_split (entry w c (globals p))). exact H.
  - destruct (nth_error (monitors p) i) as [[c|]|]; try reflexivity.
    destruct (gSecurityThreadRunning (globals p)); [|reflexivity].
    pose proof (body_keeps_level w c (globals p)) as H.
    rewrite (run_split (securityMonitorThread_body w c (globals p))). exact H.
Qed.

(** At level 2, a monitor iteration that sees a tracer leaves the level at
    2. *)
Lemma level_changed_only_by_setters_witness :
  let p := {| globals := Samples.at_level 2;
              monitors := [Looping 0];
              history := [EvPthreadCreate true] |} in
  gSecurityLevel
    (globals (step (Samples.world 5 true false false false false)
                (Schedule 0) p)) = 2.
Proof.
  cbv zeta.
  exact (level_changed_only_by_setters
           (Samples.world 5 true false false false false) (Schedule 0)
           {| globals := Samples.at_level 2;
              monitors := [Looping 0];
              history := [EvPthreadCreate true] |} eq_refl).
Defined.

Lemma step_keeps_flag_set (w : World) (a : Action) (p : Process) :
  gSecurityThreadRunning (globals p) = true ->
  gSecurityThreadRunning (globals (step w a p)) = true.
Proof.
  intros Hrun. destruct a as [c|i]; unfold step.
  - rewrite (run_split (entry w c (globals p))). cbn [globals].
    assert (Hcases : (exists vm, c = OnLoad vm) \/ (forall vm, c <> OnLoad vm))
      by (destruct c; [left; eauto | right; intros ? ?; discriminate ..]).
    destruct Hcases as [[vm ->]|Hother].
    + unfold entry, forget. unfold_monad. rewrite JNI_OnLoad_unfold, Hrun.
      exact Hrun.
    + rewrite (proj1 (entry_keeps_running w c (globals p) Hother)). exact Hrun.
  - destruct (nth_error (monitors p) i) as [[c|]|]; try exact Hrun.
    rewrite Hrun.
    rewrite (run_split (securityMonitorThread_body w c (globals p))).
    cbn [globals]. rewrite body_keeps_running. exact Hrun.
Qed.

(** X13 - the running flag is never cleared.  Once [gSecurityThreadRunning]
    is set it stays set along every schedule of exported calls and monitor
    iterations, so a monitor thread that is in its loop is never made to
    leave it. *)
Theorem running_flag_never_cleared
  (sched : list (World * Action)) (p : Process) :
  gSecurityThreadRunning (globals p) = true ->
  gSecurityThreadRunning (globals (run sched p)) = true
  /\ (forall i c, nth_error (monitors p) i = Some (Looping c) ->
      exists c', nth_error (monitors (run sched p)) i = Some (Looping c')).
Proof.
  revert p. induction sched as [|[w a] rest IH]; intros p Hrun.
  - split; [exact Hrun|]. intros i c H. exists c. exact H.
  - cbn [run].
    destruct (IH (step w a p) (step_keeps_flag_set w a p Hrun)) as (Hf & Hm).
    split; [exact Hf|]. intros i c Hi.
    assert (Hstep : exists c1, nth_error (monitors (step w a p)) i
                               = Some (Looping c1)).
    { destruct a as [call|j]; unfold step.
      - rewrite (run_split (entry w call (globals p))). cbn [monitors].
        exists c. rewrite nth_error_app1; [exact Hi|].
        apply nth_error_Some. rewrite Hi. discriminate.
      - destruct (nth_error (monitors p) j) as [[cj|]|] eqn:Ej;
          try (exists c; exact Hi).
        rewrite Hrun.
        rewrite (run_split (securityMonitorThread_body w cj (globals p))).
        cbn [monitors].
        destruct (Nat.eq_dec i j) as [->|Hne].
        + eexists. apply nth_error_update_nth_same.
          apply nth_error_Some. rewrite Ej. discriminate.
        + exists c. rewrite nth_error_update_nth_other by exact Hne. exact Hi. }
    destruct Hstep as [c1 Hc1]. exact (Hm i c1 Hc1).
Qed.

(** After the library is loaded, a second load, a request for level 9 and
    two monitor iterations leave the flag set and the thread looping. *)
Lemma running_flag_never_cleared_witness :
  let p := step (Samples.quiet 1) (Invoke (OnLoad 5)) initial_process in
  let sched := [ (Samples.quiet 2, Invoke (OnLoad 5));
                 (Samples.quiet 3, Invoke (SetNativeSecurityLevel 9));
                 (Samples.quiet 4, Schedule 0);
                 (Samples.quiet 5, Schedule 0) ] in
  gSecurityThreadRunning (globals (run sched p)) = true.
Proof.
  cbv zeta.
  exact (proj1 (running_flag_never_cleared _
                  (step (Samples.quiet 1) (Invoke (OnLoad 5)) initial_process)
                  eq_refl)).
Defined.

(** X14 - a failed thread creation is not retried.  [JNI_OnLoad] sets the
    running flag before it calls [pthread_create] and does not look at the
    return value: if the first load fails to create the thread, the flag is
    set all the same, and along every later schedule, further loads
    included, no monitor thread exists and [pthread_create] is not called
    again. *)
Theorem failed_thread_creation_not_retried
  (w : World) (vm : Z) (sched : list (World * Action)) :
  pthread_create_ok w = false ->
  let p := run sched (step w (Invoke (OnLoad vm)) initial_process) in
  gSecurityThreadRunning (globals p) = true
  /\ monitors p = []
  /\ thread_creations (history p) = 1%nat.
Proof.
  intros Hfail. cbv zeta.
  assert (Hstart : gSecurityThreadRunning
                     (globals (step w (Invoke (OnLoad vm)) initial_process)) = true
                   /\ monitors (step w (Invoke (OnLoad vm)) initial_process) = []
                   /\ thread_creations
                        (history (step w (Invoke (OnLoad vm)) initial_process))
                      = 1%nat).
  { unfold step, entry, forget. unfold_monad. rewrite JNI_OnLoad_unfold.
    cbn. rewrite Hfail. repeat split. }
  revert Hstart. generalize (step w (Invoke (OnLoad vm)) initial_process).
  induction sched as [|[w' a] rest IH]; intros p (Hf & Hm & Hc);
    [repeat split; assumption|].
  cbn [run]. apply IH. split; [apply step_keeps_flag_set, Hf|].
  destruct a as [c|i]; unfold step.
  - rewrite (run_split (entry w' c (globals p))). cbn [monitors history].
    rewrite Hm, thread_creations_app, Hc. cbn [app].
    assert (Hcases : (exists vm', c = OnLoad vm') \/ (forall vm', c <> OnLoad vm'))
      by (destruct c; [left; eauto | right; intros ? ?; discriminate ..]).
    destruct Hcases as [[vm' ->]|Hother].
    + unfold entry, forget. unfold_monad. rewrite JNI_OnLoad_unfold, Hf.
      cbn. split; reflexivity.
    + destruct (entry_keeps_running w' c (globals p) Hother) as (_ & Ht & Hs).
      rewrite Ht, Hs. split; [reflexivity|lia].
  - rewrite Hm. destruct i; cbn; rewrite ?Hm; (split; [reflexivity|assumption]).
Qed.

(** The first load cannot create the thread; the library is loaded again
    in a world where it could. *)
Lemma failed_thread_creation_not_retried_witness :
  let w := Samples.no_threads (Samples.quiet 1) in
  monitors
    (run [(Samples.quiet 2, Invoke (OnLoad 5)); (Samples.quiet 3, Schedule 0)]
       (step w (Invoke (OnLoad 5)) initial_process)) = [].
Proof.
  cbv zeta.
  exact (proj1 (proj2 (failed_thread_creation_not_retried
                         (Samples.no_threads (Samples.quiet 1)) 5
                         [(Samples.quiet 2, Invoke (OnLoad 5));
                          (Samples.quiet 3, Schedule 0)] eq_refl))).
Defined.

(* ================================================================== *)
(** ** HideProcessInfo, continued *)
(* ================================================================== *)

(** X15 - HideProcessInfo looks at its own process only.  The process id
    passed in is not used: for any two ids the call returns the same result
    and has the same effects.  It changes no global, and it writes, if
    [/proc/self/cmdline] could be opened for writing, the 14 bytes of
    "system_server" and its terminating NUL, once. *)
Theorem hideProcessInfo_ignores_pid (w : World) (pid1 pid2 : Z) (s : State) :
  hideProcessInfo w pid1 s = hideProcessInfo w pid2 s
  /\ state_after (hideProcessInfo w pid1 s) = s
  /\ effects (hideProcessInfo w pid1 s)
     = (if open_cmdline_ok w
        then [EvWriteCmdline ("system_server" ++ String zero "")%string
                (write_cmdline_ok w)]
        else [])
  /\ String.length ("system_server" ++ String zero "")%string = 14%nat.
Proof.
  unfold hideProcessInfo. unfold_monad.
  destruct (open_cmdline_ok w); repeat split.
Qed.

(* ================================================================== *)
(** ** InitializeSecurity followed by other calls *)
(* ================================================================== *)

Lemma initializeNativeSecurity_unfold (w : World) (s : State) :
  Java_com_aiassistant_security_AntiDetectionManager_initializeNativeSecurity w s
  = (tt,
     set_gSecurityLevel
       (if result (detectEmulator w s) || isHookingFrameworkPresent w
        then 3 else 1)
       (state_after (detectEmulator w s)),
     EvSetDumpable (prctl_set_dumpable_ok w) :: effects (detectEmulator w s)).
Proof.
  unfold Java_com_aiassistant_security_AntiDetectionManager_initializeNativeSecurity,
    blockPtraceAttach.
  unfold_monad. rewrite detectEmulator_unfold.
  destruct (cache_fresh (time_now w) s); cbn [fst snd];
    repeat match goal with
           | |- context [if ?b then setSecurityLevel _ else setSecurityLevel _] =>
               destruct b
           end;
    rewrite setSecurityLevel_unfold; cbn; rewrite ?app_nil_r; reflexivity.
Qed.

(** X16 - an emulator found at initialisation is remembered.  Let
    InitializeSecurity run the emulator scan at a clock reading [t] other
    than 0 with a positive result: the level becomes 3.  Then every call of
    IsBeingAnalyzed made at a clock reading below [t + 60], while the level
    is still 3 or more and the two cache globals are as that scan left them,
    answers true and changes no global, even in a world in which no probe
    would report anything. *)
Theorem emulator_at_init_then_analyzed (w1 : World) (s : State) :
  gLastEmulatorCheck s = 0 \/ 60 <= time_now w1 - gLastEmulatorCheck s ->
  time_now w1 <> 0 ->
  emulator_scan w1 = true ->
  let s1 := state_after
              (Java_com_aiassistant_security_AntiDetectionManager_initializeNativeSecurity
                 w1 s) in
  gSecurityLevel s1 = 3
  /\ forall (w2 : World) (s2 : State),
       gLastEmulatorCheck s2 = gLastEmulatorCheck s1 ->
       gIsEmulator s2 = gIsEmulator s1 ->
       3 <= gSecurityLevel s2 ->
       time_now w2 - time_now w1 < 60 ->
       result (Java_com_aiassistant_core_ai_AIStateManager_isBeingAnalyzedNative
                 w2 s2) = true
       /\ state_after
            (Java_com_aiassistant_core_ai_AIStateManager_isBeingAnalyzedNative
               w2 s2) = s2.
Proof.
  intros Hmiss Hnz Hemu. cbv zeta.
  rewrite initializeNativeSecurity_unfold.
  rewrite (proj1 (proj2 (components_of_triple _ _ _))).
  rewrite (detectEmulator_unfold w1 s).
  rewrite (proj2 (cache_fresh_false (time_now w1) s) Hmiss).
  cbn [result state_after fst snd]. rewrite Hemu.
  cbn [orb gSecurityLevel set_gSecurityLevel gLastEmulatorCheck gIsEmulator
         set_gIsEmulator set_gLastEmulatorCheck].
  split; [reflexivity|].
  intros w2 s2 Hstamp Hvalue Hlevel Hsoon.
  assert (Hhit : detectEmulator w2 s2 = (true, s2, [])).
  { rewrite (detectEmulator_hit w2 s2), Hvalue; [reflexivity| |];
      rewrite Hstamp; assumption. }
  split.
  - rewrite isBeingAnalyzedNative_unfold. cbv zeta. rewrite Hhit.
    rewrite (proj1 (components_of_triple _ _ _)).
    replace (gSecurityLevel s2 >=? 3) with true
      by (symmetry; apply Z.geb_le; exact Hlevel).
    apply orb_true_r.
  - unfold Java_com_aiassistant_core_ai_AIStateManager_isBeingAnalyzedNative.
    unfold bind at 1. rewrite Hhit. unfold_monad. cbn [fst snd].
    destruct (gSecurityLevel s2 >=? 3), (gSecurityLevel s2 >=? 2); reflexivity.
Qed.

(** Initialised at second 1000 in an emulator; the library is loaded again
    with another pointer, and IsBeingAnalyzed is asked at second 1040 in a
    world without any sign of an emulator. *)
Lemma emulator_at_init_then_analyzed_witness :
  let s1 := state_after
              (Java_com_aiassistant_security_AntiDetectionManager_initializeNativeSecurity
                 (Samples.world 1000 false false false true false)
                 initial_state) in
  result (Java_com_aiassistant_core_ai_AIStateManager_isBeingAnalyzedNative
            (Samples.quiet 1040) (set_gJavaVM 9 s1)) = true.
Proof.
  cbv zeta.
  pose proof (emulator_at_init_then_analyzed
                (Samples.world 1000 false false false true false)
                initial_state
                (or_introl eq_refl)
                ltac:(cbn; discriminate)
                eq_refl) as H.
  cbv zeta in H. destruct H as [_ H].
  apply H; [reflexivity|reflexivity|vm_compute; discriminate|cbn; reflexivity].
Defined.

(** X17 - initialisation sets the pace of the loop.  After
    InitializeSecurity, the next iteration of the monitor loop sleeps 100 ms
    if the emulator collector or the hook collector answered true during
    initialisation, and 300 ms otherwise, whatever the level was before. *)
Theorem init_sets_polling_interval (w1 w2 : World) (c : Z) (s : State) :
  let s1 := state_after
              (Java_com_aiassistant_security_AntiDetectionManager_initializeNativeSecurity
                 w1 s) in
  sleeps (effects (securityMonitorThread_body w2 c s1))
  = [ if result (detectEmulator w1 s) || isHookingFrameworkPresent w1
      then 100000 else 300000 ].
Proof.
  cbv zeta. rewrite body_sleeps, initializeNativeSecurity_unfold.
  rewrite (proj1 (proj2 (components_of_triple _ _ _))).
  cbn [gSecurityLevel set_gSecurityLevel].
  destruct (result (detectEmulator w1 s) || isHookingFrameworkPresent w1);
    reflexivity.
Qed.
